(** * Building-energy preprocessing and model evaluation (utilities.py)

    A shallow embedding of [preprocess_data] and [evaluate_models].

    Conventions of the embedding
    - float64 values are exact rationals, kept in lowest terms; NaN (and
      None, NaT) is the absence of a value.
    - a data frame is an index of row labels and an ordered list of named
      columns; a frame handed in by a caller carries the default labels
      0, 1, 2, ...
    - Python exceptions are values of [exn]; a computation that may raise
      returns a [result]. *)

From Stdlib Require Import String DecimalString ZArith QArith Qreduction Qround List Bool Lia Lqa FinFun.
Import ListNotations.

Local Open Scope Z_scope.

(** ** Exceptions and fallible computations *)

Inductive key : Type :=
| Name (s : string)
| Label (l : Z).

Inductive exn : Type :=
| KeyError (k : key)
| ValueError (msg : string)
| TypeError (msg : string)
| AttributeError (msg : string)
| AssertionError (msg : string).

Inductive result (A : Type) : Type :=
| Ok (a : A)
| Raise (e : exn).

Arguments Ok {A} a.
Arguments Raise {A} e.

Definition bind {A B : Type} (r : result A) (k : A -> result B) : result B :=
  match r with
  | Ok a => k a
  | Raise e => Raise e
  end.

Declare Scope py_scope.
Delimit Scope py_scope with py.
Notation "x <- c ;; k" := (bind c (fun x => k))
  (at level 61, c at next level, right associativity) : py_scope.
Notation "' pat <- c ;; k" := (bind c (fun x => match x with pat => k end))
  (at level 61, pat pattern, c at next level, right associativity) : py_scope.
Local Open Scope py_scope.

Fixpoint mapM {A B : Type} (f : A -> result B) (l : list A) : result (list B) :=
  match l with
  | [] => Ok []
  | a :: l' => b <- f a ;; bs <- mapM f l' ;; Ok (b :: bs)
  end.

(** ** Numbers *)

(** A float: [None] is NaN. *)
Definition float : Type := option Q.

Definition of_int (z : Z) : float := Some (inject_Z z).

Definition lift2 (op : Q -> Q -> Q) (a b : float) : float :=
  match a, b with
  | Some x, Some y => Some (Qred (op x y))
  | _, _ => None
  end.

Definition fadd : float -> float -> float := lift2 Qplus.
Definition fsub : float -> float -> float := lift2 Qminus.
Definition fmul : float -> float -> float := lift2 Qmult.

(** Division.  IEEE gives an infinity or NaN for a zero divisor; the only
    quotient of this program that can have one is the argument of
    [np.sin]/[np.cos], which are NaN at both, so the two are not told apart. *)
Definition fdiv (a b : float) : float :=
  match a, b with
  | Some x, Some y => if Qeq_bool y 0 then None else Some (Qred (x / y))
  | _, _ => None
  end.

(** [a < b] on floats; a comparison with NaN is false. *)
Definition Qltb (x y : Q) : bool := negb (Qle_bool y x).

Definition flt (a b : float) : bool :=
  match a, b with
  | Some x, Some y => Qltb x y
  | _, _ => false
  end.

(** [int(x)]: truncation toward zero; NaN cannot be converted. *)
Definition truncate (q : Q) : Z := Z.quot (Qnum q) (Zpos (Qden q)).

Definition py_int (x : float) : result Z :=
  match x with
  | Some q => Ok (truncate q)
  | None => Raise (ValueError "cannot convert float NaN to integer")
  end.

Definition Qmin2 (x y : Q) : Q := if Qle_bool x y then x else y.
Definition Qmax2 (x y : Q) : Q := if Qle_bool x y then y else x.

(** [np.nanmin]/[np.nanmax] (and pandas' [max]/[min], which skip NaN): NaN
    when there is no value at all. *)
Fixpoint nanfold (op : Q -> Q -> Q) (xs : list float) : float :=
  match xs with
  | [] => None
  | x :: xs' =>
      match x, nanfold op xs' with
      | None, m => m
      | Some a, None => Some a
      | Some a, Some b => Some (op a b)
      end
  end.

Definition nanmin : list float -> float := nanfold Qmin2.
Definition nanmax : list float -> float := nanfold Qmax2.

(** ** Data frames *)

Inductive cell : Type :=
| Num (q : Q)
| Str (s : string)
| Time (ns : Z)          (* nanoseconds since the epoch *)
| Null.                  (* NaN, None or NaT *)

Inductive dtype : Type := Numeric | Datetime | Object.

Record Series : Type := { kind : dtype; cells : list cell }.

Record DataFrame : Type :=
  { index : list Z; columns : list (string * Series) }.

Definition len (df : DataFrame) : Z := Z.of_nat (length (index df)).

Definition RangeIndex (n : nat) : list Z := map Z.of_nat (seq 0 n).

Definition is_null (c : cell) : bool :=
  match c with Null => true | _ => false end.

Definition cell_of_float (x : float) : cell :=
  match x with Some q => Num q | None => Null end.

Definition numeric (xs : list float) : Series :=
  {| kind := Numeric; cells := map cell_of_float xs |}.

(** The float held by a cell of a numeric operand. *)
Definition as_float (c : cell) : result float :=
  match c with
  | Num q => Ok (Some q)
  | Null => Ok None
  | Str _ => Raise (TypeError "unsupported operand type: str")
  | Time _ => Raise (TypeError "unsupported operand type: Timestamp")
  end.

Definition to_floats (s : Series) : result (list float) :=
  mapM as_float (cells s).

Fixpoint lookup (name : string) (cols : list (string * Series)) : option Series :=
  match cols with
  | [] => None
  | (n, s) :: cols' => if String.eqb n name then Some s else lookup name cols'
  end.

(** [df[name]] *)
Definition getitem (df : DataFrame) (name : string) : result Series :=
  match lookup name (columns df) with
  | Some s => Ok s
  | None => Raise (KeyError (Name name))
  end.

Definition has_column (df : DataFrame) (name : string) : bool :=
  match lookup name (columns df) with Some _ => true | None => false end.

Fixpoint assign (name : string) (s : Series) (cols : list (string * Series))
  : list (string * Series) :=
  match cols with
  | [] => [(name, s)]
  | (n, c) :: cols' =>
      if String.eqb n name then (n, s) :: cols' else (n, c) :: assign name s cols'
  end.

(** [df[name] = s]: an existing column is replaced where it stands, a new
    one is appended. *)
Definition setitem (df : DataFrame) (name : string) (s : Series) : DataFrame :=
  {| index := index df; columns := assign name s (columns df) |}.

Definition mem (n : string) (names : list string) : bool :=
  existsb (String.eqb n) names.

Definition without (names : list string) (df : DataFrame) : DataFrame :=
  {| index := index df;
     columns := filter (fun c => negb (mem (fst c) names)) (columns df) |}.

(** [df.drop(columns = names)]: a new frame; a name that is not a column is
    a KeyError. *)
Definition drop (df : DataFrame) (names : list string) : result DataFrame :=
  match find (fun n => negb (has_column df n)) names with
  | Some n => Raise (KeyError (Name n))
  | None => Ok (without names df)
  end.

Definition on_rows (f : list cell -> list cell) (s : Series) : Series :=
  {| kind := kind s; cells := f (cells s) |}.

Definition map_rows (fi : list Z -> list Z) (fc : list cell -> list cell)
  (df : DataFrame) : DataFrame :=
  {| index := fi (index df);
     columns := map (fun c => (fst c, on_rows fc (snd c))) (columns df) |}.

(** Boolean-mask selection [x[mask]]. *)
Fixpoint select {A : Type} (mask : list bool) (xs : list A) : list A :=
  match mask, xs with
  | b :: mask', x :: xs' => if b then x :: select mask' xs' else select mask' xs'
  | _, _ => []
  end.

Definition where_ (df : DataFrame) (mask : list bool) : DataFrame :=
  map_rows (select mask) (select mask) df.

(** Python slices [x[:k]] and [x[k:]]: a negative [k] counts from the end,
    and the bound is clipped to the length. *)
Definition bound (n : nat) (k : Z) : nat :=
  Z.to_nat (if k <? 0 then Z.max 0 (Z.of_nat n + k) else Z.min k (Z.of_nat n)).

Definition upto {A : Type} (k : Z) (xs : list A) : list A :=
  firstn (bound (length xs) k) xs.

Definition from {A : Type} (k : Z) (xs : list A) : list A :=
  skipn (bound (length xs) k) xs.

(** [df.iloc[:k]] and [df.iloc[k:]]. *)
Definition iloc_upto (df : DataFrame) (k : Z) : DataFrame :=
  map_rows (upto k) (upto k) df.

Definition iloc_from (df : DataFrame) (k : Z) : DataFrame :=
  map_rows (from k) (from k) df.

Fixpoint position (l : Z) (idx : list Z) : option nat :=
  match idx with
  | [] => None
  | l' :: idx' => if l' =? l then Some O else option_map S (position l idx')
  end.

(** [df[name][l]] on an integer index: the row LABELLED [l]. *)
Definition at_label (idx : list Z) (s : Series) (l : Z) : result cell :=
  match position l idx with
  | Some i =>
      match nth_error (cells s) i with
      | Some c => Ok c
      | None => Raise (KeyError (Label l))
      end
  | None => Raise (KeyError (Label l))
  end.

(** [df.isnull()] reduced by [np.any]. *)
Definition any_null (df : DataFrame) : bool :=
  existsb (fun c => existsb is_null (cells (snd c))) (columns df).

(** ** MinMaxScaler (scikit-learn), feature range (0, 1) *)

Record MinMaxScaler : Type :=
  { data_min_ : list float;
    data_max_ : list float;
    scale_ : list float;
    min_ : list float }.

Definition map2 {A B C : Type} (f : A -> B -> C) (l : list A) (l' : list B)
  : list C :=
  map (fun p => f (fst p) (snd p)) (combine l l').

(** Input validation of [fit] and [transform]: the frame as an array of
    floats, column by column, with at least one row and one column. *)
Definition check_array (X : DataFrame) : result (list (list float)) :=
  cols <- mapM (fun c => to_floats (snd c)) (columns X) ;;
  if len X =? 0 then Raise (ValueError "Found array with 0 sample(s)")
  else match cols with
       | [] => Raise (ValueError "Found array with 0 feature(s)")
       | _ => Ok cols
       end.

(** A constant column has range 0 and is scaled by 1. *)
Definition handle_zeros_in_scale (r : float) : float :=
  match r with
  | Some q => if Qeq_bool q 0 then of_int 1 else r
  | None => None
  end.

Definition fit (X : DataFrame) : result MinMaxScaler :=
  cols <- check_array X ;;
  let data_min := map nanmin cols in
  let data_max := map nanmax cols in
  let data_range := map2 fsub data_max data_min in
  let scale := map (fun r => fdiv (of_int 1) (handle_zeros_in_scale r)) data_range in
  let min := map2 (fun m s => fsub (of_int 0) (fmul m s)) data_min scale in
  Ok {| data_min_ := data_min; data_max_ := data_max;
        scale_ := scale; min_ := min |}.

Definition transform (scaler : MinMaxScaler) (X : DataFrame)
  : result (list (list float)) :=
  cols <- check_array X ;;
  if negb (length cols =? length (scale_ scaler))%nat
  then Raise (ValueError "X has a different number of features")
  else Ok (map2 (fun col sm => map (fun x => fadd (fmul x (fst sm)) (snd sm)) col)
             cols (combine (scale_ scaler) (min_ scaler))).

(** [pd.DataFrame(array, columns = features)]: fresh labels 0, 1, ... *)
Definition DataFrame_of (array : list (list float)) (features : list string)
  : DataFrame :=
  {| index := RangeIndex (length (hd [] array));
     columns := combine features (map numeric array) |}.

(** ** preprocess_data, from the row filter on (lines 87-142) *)

Definition columns_remove : list string :=
  ["elec_cons"; "elec_cons_imp"; "pow_dem"; "anom_flag"; "anom_missed_flag";
   "cleaned_energy"; "forecast"]%string.

(** One entry of the mask [df['elec_cons'] > 0]. *)
Definition positive (c : cell) : result bool :=
  x <- as_float c ;; Ok (flt (of_int 0) x).

(** Lines 87-96: the rows with a positive target, the targets, and the
    frame without the target and its companions. *)
Definition select_targets (df : DataFrame) : result (DataFrame * list cell) :=
  elec_cons <- getitem df "elec_cons" ;;
  mask <- mapM positive (cells elec_cons) ;;
  let df := where_ df mask in
  elec_cons <- getitem df "elec_cons" ;;
  let targets := cells elec_cons in
  df <- drop df (filter (has_column df) columns_remove) ;;
  Ok (df, targets).

Definition cell_sub (a b : cell) : result float :=
  x <- as_float a ;; y <- as_float b ;; Ok (fsub x y).

(** Lines 98-106.  The loop starts with [frequency = 0], so the body runs at
    least once; [i] is [index].  [None] is fuel running out. *)
Fixpoint frequency_loop (fuel : nat) (idx : list Z) (timestamp : Series) (i : Z)
  : option (result float) :=
  match fuel with
  | O => None
  | S fuel' =>
      match (b <- at_label idx timestamp (i + 1) ;;
             a <- at_label idx timestamp i ;;
             cell_sub b a) with
      | Raise e => Some (Raise e)
      | Ok frequency =>
          if flt frequency (of_int 1)
          then frequency_loop fuel' idx timestamp (i + 1)
          else Some (Ok frequency)
      end
  end.

(** The loop with fuel for one turn more than there are rows, which is
    always enough ([frequency_loop_fuel] below): the last case never
    arises. *)
Definition infer_frequency (df : DataFrame) : result float :=
  timestamp <- getitem df "timestamp" ;;
  match frequency_loop (S (length (index df))) (index df) timestamp 0 with
  | Some r => r
  | None => Raise (ValueError "out of fuel")
  end.

(** Lines 108-112. *)
Definition daily_observations (frequency : float) : float :=
  fdiv (of_int (60 * 60 * 24)) frequency.

Definition test_start_of (df : DataFrame) (test_days : Z) (frequency : float)
  : result Z :=
  py_int (fsub (of_int (len df))
               (fmul (of_int test_days) (daily_observations frequency))).

Definition split_index (df : DataFrame) (test_days : Z) : result Z :=
  frequency <- infer_frequency df ;;
  test_start_of df test_days frequency.

(** Lines 121-136. *)
Definition scale_features (df train test : DataFrame)
  : result (DataFrame * DataFrame) :=
  scaler <- fit train ;;
  train' <- transform scaler train ;;
  test' <- transform scaler test ;;
  let features := map fst (columns df) in
  Ok (DataFrame_of train' features, DataFrame_of test' features).

(** [assert b, msg] *)
Definition py_assert (b : bool) (msg : string) : result unit :=
  if b then Ok tt else Raise (AssertionError msg).

(** [assert ~np.any(x.isnull()), msg]: [np.any] gives a numpy boolean, on
    which [~] is logical negation. *)
Definition assert_no_null (x : DataFrame) (msg : string) : result unit :=
  py_assert (negb (any_null x)) msg.

Definition outputs : Type := DataFrame * list cell * DataFrame * list cell.

(** Lines 87-136: the tables and targets as they reach the final check. *)
Definition split_and_scale (df : DataFrame) (test_days : Z) (scale : bool)
  : result outputs :=
  ' (df, targets) <- select_targets df ;;
  test_start <- split_index df test_days ;;
  let train := iloc_upto df test_start in
  let test := iloc_from df test_start in
  let train_targets := upto test_start targets in
  let test_targets := from test_start targets in
  ' (train, test) <- (if scale then scale_features df train test
                      else Ok (train, test)) ;;
  Ok (train, train_targets, test, test_targets).

(** Lines 138-142. *)
Definition check_and_return (out : outputs) : result outputs :=
  let '(train, train_targets, test, test_targets) := out in
  _ <- assert_no_null train "Training Data Contains Missing Values!" ;;
  _ <- assert_no_null test "Testing Data Contains Missing Values!" ;;
  Ok (train, train_targets, test, test_targets).

Definition model_inputs (df : DataFrame) (test_days : Z) (scale : bool)
  : result outputs :=
  out <- split_and_scale df test_days scale ;;
  check_and_return out.

(** ** Calendar fields of a timestamp *)

Definition ns_per_day : Z := 86400 * 1000000000.

Definition days_since_epoch (ns : Z) : Z := ns / ns_per_day.

Definition is_leap (y : Z) : bool :=
  ((y mod 4 =? 0) && negb (y mod 100 =? 0)) || (y mod 400 =? 0).

(** The civil date of a day number, counted in years that start on
    1 March: (year, month, day of that March-based year). *)
Definition civil (days : Z) : Z * Z * Z :=
  let z := days + 719468 in
  let era := z / 146097 in
  let doe := z - era * 146097 in
  let yoe := (doe - doe / 1460 + doe / 36524 - doe / 146096) / 365 in
  let doy := doe - (365 * yoe + yoe / 4 - yoe / 100) in
  let mp := (5 * doy + 2) / 153 in
  let m := if mp <? 10 then mp + 3 else mp - 9 in
  let y := yoe + era * 400 + (if m <=? 2 then 1 else 0) in
  (y, m, doy).

(** [.dt.dayofyear]: 1 for 1 January. *)
Definition dayofyear (ns : Z) : Z :=
  let '(y, m, doy) := civil (days_since_epoch ns) in
  if m <=? 2 then doy - 306 + 1
  else doy + 59 + (if is_leap y then 1 else 0) + 1.

(** [.dt.month]: 1 to 12. *)
Definition month (ns : Z) : Z :=
  let '(_, m, _) := civil (days_since_epoch ns) in m.

(** [.dt.dayofweek]: 0 for Monday; 1 January 1970 was a Thursday. *)
Definition dayofweek (ns : Z) : Z := (days_since_epoch ns + 3) mod 7.

(** ** Library primitives left abstract *)

Record library : Type :=
  { np_sin : Q -> Q;                       (* on finite arguments *)
    np_cos : Q -> Q;
    np_float32 : Q -> Q;                   (* rounding to single precision *)
    parse_datetime : string -> option Z;   (* a date string, in nanoseconds *)
    str : cell -> string }.                (* [str(x)] of a value that is not a string *)

(** [np.pi], the float64 nearest to pi. *)
Definition np_pi : Q := 884279719003555 # 281474976710656.

(** ** Column operations of the feature-engineering steps *)

(** [s.fillna(v)] with a string [v]: a column that had a hole becomes an
    object column. *)
Definition fillna (s : Series) (v : string) : Series :=
  {| kind := if existsb is_null (cells s) then Object else kind s;
     cells := map (fun c => if is_null c then Str v else c) (cells s) |}.

(** A calendar field of each timestamp; NaT gives NaN. *)
Definition calendar (field : Z -> Z) (s : Series) : Series :=
  {| kind := Numeric;
     cells := map (fun c => match c with
                            | Time ns => Num (inject_Z (field ns))
                            | _ => Null
                            end) (cells s) |}.

(** [.dt.<field>] *)
Definition dt (field : Z -> Z) (s : Series) : result Series :=
  match kind s with
  | Datetime => Ok (calendar field s)
  | _ => Raise (AttributeError "Can only use .dt accessor with datetimelike values")
  end.

Definition times (s : Series) : list Z :=
  flat_map (fun c => match c with Time ns => [ns] | _ => [] end) (cells s).

Definition minimum (zs : list Z) : option Z :=
  match zs with
  | [] => None
  | z :: zs' => Some (fold_left Z.min zs' z)
  end.

(** [(s - s.min()).dt.total_seconds()] *)
Definition seconds_since_min (s : Series) : result Series :=
  match kind s with
  | Datetime =>
      let start := minimum (times s) in
      Ok {| kind := Numeric;
            cells := map (fun c => match c, start with
                                   | Time ns, Some t0 =>
                                       Num (Qred (inject_Z (ns - t0) / inject_Z 1000000000))
                                   | _, _ => Null
                                   end) (cells s) |}
  | _ => Raise (AttributeError "Can only use .dt accessor with datetimelike values")
  end.

(** The order in which [np.unique] and pandas sort values: numbers by
    value and strings by code point, a missing number or time last; values
    of different kinds do not compare. *)
Definition cell_compare (a b : cell) : result comparison :=
  match a, b with
  | Num x, Num y => Ok (x ?= y)%Q
  | Str x, Str y => Ok (String.compare x y)
  | Time x, Time y => Ok (x ?= y)
  | Null, Null => Ok Eq
  | Num _, Null | Time _, Null => Ok Lt
  | Null, Num _ | Null, Time _ => Ok Gt
  | _, _ => Raise (TypeError "'<' not supported between instances")
  end.

Fixpoint insert (c : cell) (sorted : list cell) : result (list cell) :=
  match sorted with
  | [] => Ok [c]
  | d :: sorted' =>
      o <- cell_compare c d ;;
      match o with
      | Lt => Ok (c :: sorted)
      | Eq => Ok sorted
      | Gt => r <- insert c sorted' ;; Ok (d :: r)
      end
  end.

(** [np.unique]: the distinct values, sorted. *)
Fixpoint unique (cs : list cell) : result (list cell) :=
  match cs with
  | [] => Ok []
  | c :: cs' => u <- unique cs' ;; insert c u
  end.

Definition same (c d : cell) : bool :=
  match cell_compare c d with Ok Eq => true | _ => false end.

Fixpoint rank (c : cell) (classes : list cell) : option nat :=
  match classes with
  | [] => None
  | d :: classes' => if same c d then Some O else option_map S (rank c classes')
  end.

(** [LabelEncoder().fit_transform(s)]: each value's place among the sorted
    distinct values. *)
Definition fit_transform (s : Series) : result Series :=
  classes <- unique (cells s) ;;
  Ok {| kind := Numeric;
        cells := map (fun c => match rank c classes with
                               | Some i => Num (inject_Z (Z.of_nat i))
                               | None => Null
                               end) (cells s) |}.

Fixpoint distinct (cs : list cell) (seen : list cell) : list cell :=
  match cs with
  | [] => []
  | c :: cs' =>
      if existsb (same c) seen then distinct cs' seen
      else c :: distinct cs' (c :: seen)
  end.

(** The categories of an object column: its values other than the missing
    one, sorted when they compare and in order of appearance otherwise. *)
Definition categories (s : Series) : list cell :=
  let values := filter (fun c => negb (is_null c)) (cells s) in
  match unique values with
  | Ok levels => levels
  | Raise _ => distinct values []
  end.

Definition indicator (level : cell) (s : Series) : Series :=
  {| kind := Numeric;
     cells := map (fun c => if same c level then Num 1 else Num 0) (cells s) |}.

Definition is_object (s : Series) : bool :=
  match kind s with Object => true | _ => false end.

(** ** Statements with an effect

    A [stateful S A] runs on a state [S]: it returns the state as it is
    afterwards together with what the statement produced, also when it
    raises.  [preprocess_data] receives a reference to the caller's frame,
    and its first statements run on that object: they are [action]s. *)

Definition stateful (S A : Type) : Type := S -> S * result A.

Definition and_then {S A B : Type} (c : stateful S A) (k : A -> stateful S B)
  : stateful S B :=
  fun st =>
    match c st with
    | (st', Ok a) => k a st'
    | (st', Raise e) => (st', Raise e)
    end.

Definition eval {S A : Type} (r : result A) : stateful S A :=
  fun st => (st, r).

Definition action (A : Type) : Type := stateful DataFrame A.

Definition get (name : string) : action Series :=
  fun df => (df, getitem df name).

Definition set (name : string) (s : Series) : action unit :=
  fun df => (setitem df name s, Ok tt).

Notation "x <~ c ;; k" := (and_then c (fun x => k))
  (at level 61, c at next level, right associativity) : py_scope.
Notation "c ;;; k" := (and_then c (fun _ => k))
  (at level 61, right associativity) : py_scope.

Fixpoint for_each {A : Type} (l : list A) (body : A -> action unit) : action unit :=
  match l with
  | [] => eval (Ok tt)
  | a :: l' => body a ;;; for_each l' body
  end.

Section Preprocessing.

Variable lib : library.

(** [pd.DatetimeIndex(s)]: numbers are nanoseconds since the epoch. *)
Definition to_datetime (c : cell) : result cell :=
  match c with
  | Time ns => Ok (Time ns)
  | Null => Ok Null
  | Num q => Ok (Time (truncate q))
  | Str s =>
      match parse_datetime lib s with
      | Some ns => Ok (Time ns)
      | None => Raise (ValueError "Unknown string format")
      end
  end.

Definition DatetimeIndex (s : Series) : result Series :=
  cs <- mapM to_datetime (cells s) ;;
  Ok {| kind := Datetime; cells := cs |}.

(** [f(2 * np.pi * xs / max(xs))] for [f] one of [np.sin], [np.cos]. *)
Definition cycle (f : Q -> Q) (xs : list float) : Series :=
  let max := nanmax xs in
  numeric (map (fun x => option_map f (fdiv (fmul (Some (2 * np_pi)%Q) x) max)) xs).

Definition cyclical (f : Q -> Q) (s : Series) : result Series :=
  xs <- to_floats s ;;
  Ok (cycle f xs).

Definition cyc_features : list string :=
  ["yday"; "month"; "wday"; "num_time"]%string.

(** Lines 55-71, all of them assignments into the caller's frame. *)
Definition derive_features : action unit :=
  s <~ get "sun_rise_set" ;;
  set "sun_rise_set" (fillna s "neither") ;;;
  s <~ get "timestamp" ;;
  t <~ eval (DatetimeIndex s) ;;
  set "timestamp" t ;;;
  s <~ get "timestamp" ;; v <~ eval (dt dayofyear s) ;; set "yday" v ;;;
  s <~ get "timestamp" ;; v <~ eval (dt month s) ;; set "month" v ;;;
  s <~ get "timestamp" ;; v <~ eval (dt dayofweek s) ;; set "wday" v ;;;
  for_each cyc_features (fun feature =>
    s <~ get feature ;;
    v <~ eval (cyclical (np_sin lib) s) ;;
    set (feature ++ "_sin") v ;;;
    s <~ get feature ;;
    v <~ eval (cyclical (np_cos lib) s) ;;
    set (feature ++ "_cos") v).

Definition level_name (level : cell) : string :=
  match level with
  | Str s => s
  | _ => str lib level
  end.

Definition dummies (c : string * Series) : list (string * Series) :=
  map (fun level => ((fst c ++ "_" ++ level_name level)%string,
                     indicator level (snd c)))
      (categories (snd c)).

(** [pd.get_dummies(df)]: the columns that are not object columns, in
    their order, then the indicator columns of each object column. *)
Definition get_dummies (df : DataFrame) : DataFrame :=
  {| index := index df;
     columns := filter (fun c => negb (is_object (snd c))) (columns df)
                ++ flat_map dummies
                     (filter (fun c => is_object (snd c)) (columns df)) |}.

(** Lines 73-85, on the new frame that [drop] returns. *)
Definition encode (df : DataFrame) : result DataFrame :=
  df <- drop df ["yday"; "month"; "wday"; "num_time"; "day_of_week"]%string ;;
  timestamp <- getitem df "timestamp" ;;
  seconds <- seconds_since_min timestamp ;;
  let df := setitem df "timestamp" seconds in
  week_day_end <- getitem df "week_day_end" ;;
  labels <- fit_transform week_day_end ;;
  let df := setitem df "week_day_end" labels in
  Ok (get_dummies df).

(** [preprocess_data(df, test_days, scale)]: the caller's frame after the
    call, and the value returned or the exception raised. *)
Definition preprocess_data (df : DataFrame) (test_days : Z) (scale : bool)
  : DataFrame * result outputs :=
  let (caller, r) := derive_features df in
  (caller,
   _ <- r ;;
   df <- encode caller ;;
   model_inputs df test_days scale).

(** *** Observers of the local variables

    The frame after line 85, and the state when line 112 has run. *)
Definition encoded (df : DataFrame) : result DataFrame :=
  let (caller, r) := derive_features df in
  _ <- r ;; encode caller.

Record split_point : Type :=
  { features : DataFrame;      (* [df] after line 96 *)
    targets : list cell;
    frequency : float;
    test_start : Z }.

Definition at_split (df : DataFrame) (test_days : Z) : result split_point :=
  enc <- encoded df ;;
  ' (feat, tg) <- select_targets enc ;;
  f <- infer_frequency feat ;;
  ts <- test_start_of feat test_days f ;;
  Ok {| features := feat; targets := tg; frequency := f; test_start := ts |}.

(** The two feature tables as they reach the check of line 139. *)
Definition final_tables (df : DataFrame) (test_days : Z) (scale : bool)
  : result (DataFrame * DataFrame) :=
  enc <- encoded df ;;
  ' (train, _, test, _) <- split_and_scale enc test_days scale ;;
  Ok (train, test).

End Preprocessing.

(** ** evaluate_models *)

(** The estimators the harness builds, with the arguments it gives them. *)
Inductive estimator : Type :=
| ElasticNet (alpha l1_ratio : Q)
| KNeighborsRegressor
| SVR
| RandomForestRegressor (n_estimators n_jobs : Z)
| ExtraTreesRegressor (n_estimators n_jobs : Z)
| AdaBoostRegressor (n_estimators : Z) (learning_rate : Q) (loss : string).

(** What one model run yields: the model's name, the two durations in
    seconds and the error measure. *)
Record Result : Type :=
  { model : string; train_time : float; test_time : float; mape : float }.

(** [str(e)] *)
Definition message (e : exn) : string :=
  match e with
  | KeyError (Name s) => "'" ++ s ++ "'"
  | KeyError (Label l) => NilZero.string_of_int (Z.to_int l)
  | ValueError msg | TypeError msg | AttributeError msg | AssertionError msg => msg
  end%string.

(** [np.vstack(rows)] then [pd.DataFrame(..., columns = [...])]. *)
Definition results_frame (rows : list Result) : DataFrame :=
  let column f := {| kind := Object; cells := map f rows |} in
  {| index := RangeIndex (length rows);
     columns := [("model", column (fun r => Str (model r)));
                 ("train_time", column (fun r => cell_of_float (train_time r)));
                 ("test_time", column (fun r => cell_of_float (test_time r)));
                 ("mape", column (fun r => cell_of_float (mape r)))]%string |}.

Section Harness.

Variable lib : library.

(** The state the model runs act on: the clock and the random
    generators. *)
Variable world : Type.

(** Modelled from the spec: [implement_model], the Model Runner, which
    utilities.py calls and does not define.  It fits the model on the
    training data and predicts on the testing data, timing both, and
    yields the name, the two durations and the MAPE; an exception of the
    model is not caught in it. *)
Variable implement_model :
  estimator -> DataFrame -> list cell -> DataFrame -> list cell -> string ->
  stateful world Result.

(** [x.astype(np.float32)] on one value. *)
Definition astype_float32 (c : cell) : cell :=
  match c with
  | Num q => Num (np_float32 lib q)
  | _ => c
  end.

(** [results.iloc[:, 1:] = results.iloc[:, 1:].astype(np.float32)] *)
Definition coerce_numeric (results : DataFrame) : DataFrame :=
  {| index := index results;
     columns := firstn 1 (columns results)
                ++ map (fun c => (fst c, on_rows (map astype_float32) (snd c)))
                     (skipn 1 (columns results)) |}.

(** The six runs and the table, once the data is there. *)
Definition run_models (train : DataFrame) (train_targets : list cell)
  (test : DataFrame) (test_targets : list cell) : stateful world DataFrame :=
  elasticnet_results <~ implement_model (ElasticNet 1 (1 # 2))
      train train_targets test test_targets "elasticnet" ;;
  knn_results <~ implement_model KNeighborsRegressor
      train train_targets test test_targets "knn" ;;
  svm_results <~ implement_model SVR
      train train_targets test test_targets "svm" ;;
  rf_results <~ implement_model (RandomForestRegressor 100 (-1))
      train train_targets test test_targets "rf" ;;
  et_results <~ implement_model (ExtraTreesRegressor 100 (-1))
      train train_targets test test_targets "et" ;;
  adaboost_results <~ implement_model (AdaBoostRegressor 1000 (5 # 100) "exponential")
      train train_targets test test_targets "adaboost" ;;
  let results := results_frame [elasticnet_results; knn_results; svm_results;
                                rf_results; et_results; adaboost_results] in
  eval (Ok (coerce_numeric results)).

(** What a call of [evaluate_models] leaves behind and gives back. *)
Record outcome : Type :=
  { caller : DataFrame;                  (* the frame that was passed in *)
    stdout : list string;                (* the lines printed *)
    after : world;
    returned : result (option DataFrame) (* [None] is Python's None *) }.

Definition evaluate_models (df : DataFrame) (w : world) : outcome :=
  match preprocess_data lib df 183 true with
  | (df', Raise e) =>
      {| caller := df';
         stdout := [("Error processing data: " ++ " " ++ message e)%string];
         after := w;
         returned := Ok None |}
  | (df', Ok (train, train_targets, test, test_targets)) =>
      let (w', r) := run_models train train_targets test test_targets w in
      {| caller := df';
         stdout := [];
         after := w';
         returned := table <- r ;; Ok (Some table) |}
  end.

End Harness.

(** ** Sample inputs *)

(** A library for running the embedding on the frames below.  The
    trigonometric functions and the rounding are stand-ins; no frame below
    has a date held as a string or a category that is not one. *)
Definition sample_library : library :=
  {| np_sin := fun x => Qred (x / (1 + x * x));
     np_cos := fun x => Qred (1 / (1 + x * x));
     np_float32 := fun x => x;
     parse_datetime := fun _ => None;
     str := fun _ => EmptyString |}.

(** A frame of observations taken at the given times (in nanoseconds) with
    the given consumption, one row each, labelled 0, 1, ... *)
Definition observations (stamps : list Z) (elec_cons : list cell) : DataFrame :=
  let n := length stamps in
  {| index := RangeIndex n;
     columns :=
       [("timestamp", {| kind := Datetime; cells := map Time stamps |});
        ("elec_cons", {| kind := Numeric; cells := elec_cons |});
        ("sun_rise_set", {| kind := Object; cells := repeat Null n |});
        ("week_day_end", {| kind := Object; cells := repeat (Str "week_day") n |});
        ("num_time", {| kind := Numeric;
                        cells := map (fun i => Num (inject_Z (Z.of_nat i))) (seq 1 n) |});
        ("day_of_week", {| kind := Object; cells := repeat (Str "Thu") n |})]%string |}.




(** Four daily readings. *)
Definition four_days : DataFrame :=
  observations (map (fun i => Z.of_nat i * ns_per_day) (seq 0 4))
               [Num 3; Num 4; Num 5; Num 6].

(** Three readings 183 days apart. *)
Definition half_years : DataFrame :=
  observations (map (fun i => Z.of_nat i * 183 * ns_per_day) (seq 0 3))
               [Num 3; Num 4; Num 5].

(** Daily readings, the second of them without consumption. *)
Definition gap_frame : DataFrame :=
  observations (map (fun i => Z.of_nat i * ns_per_day) (seq 0 4))
               [Num 3; Num 0; Num 5; Num 6].

(** Daily readings, the third of them without consumption. *)
Definition late_gap_frame : DataFrame :=
  observations (map (fun i => Z.of_nat i * ns_per_day) (seq 0 4))
               [Num 3; Num 4; Num 0; Num 5].

(** Daily readings with a feature column that has a hole. *)
Definition holed_frame : DataFrame :=
  setitem four_days "temperature"
    {| kind := Numeric; cells := [Num 20; Null; Num 22; Num 21] |}.

(** A frame with nothing in it. *)
Definition empty_frame : DataFrame := {| index := []; columns := [] |}.

(** A model runner for the sample runs: it advances a clock and reports
    the time it read. *)
Definition sample_runner (m : estimator) (train : DataFrame)
  (train_targets : list cell) (test : DataFrame) (test_targets : list cell)
  (name : string) : stateful Z Result :=
  fun clock =>
    (clock + 1,
     Ok {| model := name; train_time := of_int clock; test_time := of_int 1;
           mape := of_int (len test) |}).


(** A runner in which the support-vector model raises. *)
Definition failing_runner (m : estimator) (train : DataFrame)
  (train_targets : list cell) (test : DataFrame) (test_targets : list cell)
  (name : string) : stateful Z Result :=
  match m with
  | SVR => fun clock => (clock + 1, Raise (ValueError "no convergence"))
  | _ => sample_runner m train train_targets test test_targets name
  end.

(** The four daily readings without their num_time column. *)
Definition no_num_time : DataFrame := without ["num_time"%string] four_days.

(** Four weekly readings, each on a Monday. *)
Definition mondays : DataFrame :=
  observations (map (fun i => (4 + 7 * Z.of_nat i) * ns_per_day) (seq 0 4))
               [Num 3; Num 4; Num 5; Num 6].

(** The feature table of [subsecond_frame]. *)
Definition subsecond_features : DataFrame :=
  {| index := [0; 1; 2];
     columns := [("timestamp"%string, numeric [Some 0%Q; Some (1 # 2); Some (5 # 2)])] |}.

(** ** Readings of the sampling interval *)





(** ** Predicates of the statements *)

Definition fails {A : Type} (r : result A) : Prop := exists e, r = Raise e.


(** Every column has a cell for each row label. *)
Definition well_formed (df : DataFrame) : Prop :=
  Forall (fun c => length (cells (snd c)) = length (index df)) (columns df).

Definition fits (df : DataFrame) (s : Series) : Prop :=
  length (cells s) = length (index df).

(** [establishes P c Q]: run from a state in [P], a statement that
    completes leaves a state and a value in [Q]. *)
Definition establishes {S A : Type} (P : S -> Prop) (c : stateful S A)
  (Q : A -> S -> Prop) : Prop :=
  forall st st' a, P st -> c st = (st', Ok a) -> Q a st'.

(** A frame with the row labels [idx], all of whose columns have a cell
    for each. *)
Definition shaped (idx : list Z) (df : DataFrame) : Prop :=
  index df = idx /\ well_formed df.

Definition sized (idx : list Z) (s : Series) : Prop :=
  length (cells s) = length idx.

(** [elec_cons > 0], on one cell. *)
Definition is_positive (c : cell) : bool :=
  match c with
  | Num q => Qltb 0 q
  | _ => false
  end.


(** [well_formed], decided. *)
Definition rectangular (df : DataFrame) : bool :=
  forallb (fun c => (length (cells (snd c)) =? length (index df))%nat) (columns df).

(** [runs c st Q]: from [st] the statement [c] completes, in a state and
    with a value in [Q]. *)
Definition runs {S A : Type} (c : stateful S A) (st : S) (Q : A -> S -> Prop)
  : Prop :=
  exists st' a, c st = (st', Ok a) /\ Q a st'.


Definition calendar_floats (field : Z -> Z) (s : Series) : list float :=
  map (fun c => match c with
                | Time ns => Some (inject_Z (field ns))
                | _ => None
                end) (cells s).

(** The caller's frame as a call leaves it, when the frame has the
    columns that lines 55-71 read. *)
Definition left_behind (lib : library) (df : DataFrame) (s t : Series)
  (xs : list float) : DataFrame :=
  let with_cycle df feature ys :=
    setitem (setitem df (feature ++ "_sin") (cycle (np_sin lib) ys))
            (feature ++ "_cos") (cycle (np_cos lib) ys) in
  let df := setitem df "sun_rise_set" (fillna s "neither") in
  let df := setitem df "timestamp" t in
  let df := setitem df "yday" (calendar dayofyear t) in
  let df := setitem df "month" (calendar month t) in
  let df := setitem df "wday" (calendar dayofweek t) in
  let df := with_cycle df "yday"%string (calendar_floats dayofyear t) in
  let df := with_cycle df "month"%string (calendar_floats month t) in
  let df := with_cycle df "wday"%string (calendar_floats dayofweek t) in
  with_cycle df "num_time"%string xs.

(** The models of the harness, in the order it runs them, each with the
    name it is run under. *)
Definition roster : list (estimator * string) :=
  [(ElasticNet 1 (1 # 2), "elasticnet");
   (KNeighborsRegressor, "knn");
   (SVR, "svm");
   (RandomForestRegressor 100 (-1), "rf");
   (ExtraTreesRegressor 100 (-1), "et");
   (AdaBoostRegressor 1000 (5 # 100) "exponential", "adaboost")]%string.

(** The runs of a list of models, one after the other, on one split. *)
Fixpoint run_each {world : Type}
  (implement_model : estimator -> DataFrame -> list cell -> DataFrame ->
                     list cell -> string -> stateful world Result)
  (models : list (estimator * string))
  (train : DataFrame) (train_targets : list cell)
  (test : DataFrame) (test_targets : list cell) : stateful world (list Result) :=
  match models with
  | [] => eval (Ok [])
  | (m, name) :: models' =>
      r <~ implement_model m train train_targets test test_targets name ;;
      rs <~ run_each implement_model models' train train_targets test test_targets ;;
      eval (Ok (r :: rs))
  end.

(** The column labels of a frame, in order. *)
Definition column_names (df : DataFrame) : list string := map fst (columns df).

(** A frame without an object column. *)
Definition no_object (df : DataFrame) : Prop :=
  Forall (fun c => is_object (snd c) = false) (columns df).

(** The caller's frame as lines 55-64 and the first three turns of the
    loop leave it. *)
Definition before_num_time (lib : library) (df : DataFrame) (s t : Series)
  : DataFrame :=
  let with_cycle df feature ys :=
    setitem (setitem df (feature ++ "_sin") (cycle (np_sin lib) ys))
            (feature ++ "_cos") (cycle (np_cos lib) ys) in
  let df := setitem df "sun_rise_set" (fillna s "neither") in
  let df := setitem df "timestamp" t in
  let df := setitem df "yday" (calendar dayofyear t) in
  let df := setitem df "month" (calendar month t) in
  let df := setitem df "wday" (calendar dayofweek t) in
  let df := with_cycle df "yday"%string (calendar_floats dayofyear t) in
  let df := with_cycle df "month"%string (calendar_floats month t) in
  with_cycle df "wday"%string (calendar_floats dayofweek t).

(** The value [transform] gives [x] in a column that was fit on [col]. *)
Definition rescale (col : list float) (x : float) : float :=
  let scale :=
    fdiv (of_int 1) (handle_zeros_in_scale (fsub (nanmax col) (nanmin col))) in
  fadd (fmul x scale) (fsub (of_int 0) (fmul (nanmin col) scale)).

(** The maximum that lines 70-71 divide by is 0, or there is none. *)
Definition zero_max (xs : list float) : Prop :=
  nanmax xs = None \/ exists m, nanmax xs = Some m /\ (m == 0)%Q.

Definition all_null (s : Series) : Prop := Forall (fun c => c = Null) (cells s).

(** * Properties *)

(** ** Fallible computations *)

Lemma bind_Ok {A B : Type} (r : result A) (k : A -> result B) (b : B) :
  bind r k = Ok b -> exists a, r = Ok a /\ k a = Ok b.
Proof. destruct r as [a|e]; simpl; [eauto | discriminate]. Qed.

Lemma Ok_inj {A : Type} (a b : A) : Ok a = Ok b -> a = b.
Proof. intros H. injection H as H. exact H. Qed.

Lemma bind_Raise {A B : Type} (r : result A) (k : A -> result B) (e : exn) :
  r = Raise e -> bind r k = Raise e.
Proof. intros ->; reflexivity. Qed.

(** Inversion of a successful sequence of statements. *)
Ltac inv_ok H :=
  repeat match type of H with
    | bind _ _ = Ok _ =>
        let a := fresh "x" in
        let Ha := fresh "E" in
        apply bind_Ok in H; destruct H as (a & Ha & H)
    | (let (_, _) := ?p in _) = Ok _ => destruct p
    | (let ' (_, _) := ?p in _) = Ok _ => destruct p
    end.

Lemma mapM_length {A B : Type} (f : A -> result B) (l : list A) (l' : list B) :
  mapM f l = Ok l' -> length l' = length l.
Proof.
  revert l'; induction l as [|a l IH]; simpl; intros l' H.
  - injection H as <-; reflexivity.
  - inv_ok H. injection H as <-. simpl. f_equal. auto.
Qed.

Lemma mapM_nth_error {A B : Type} (f : A -> result B) (l : list A) (l' : list B) :
  mapM f l = Ok l' ->
  forall i a, nth_error l i = Some a ->
  exists b, nth_error l' i = Some b /\ f a = Ok b.
Proof.
  revert l'; induction l as [|a0 l IH]; simpl; intros l' H i a Hi.
  - destruct i; discriminate.
  - inv_ok H. injection H as <-. destruct i as [|i]; simpl in *.
    + injection Hi as <-. eauto.
    + eauto.
Qed.

(** ** Row labels *)








Lemma frequency_loop_S (fuel : nat) (idx : list Z) (ts : Series) (i : Z) :
  frequency_loop (S fuel) idx ts i
  = match (b <- at_label idx ts (i + 1) ;; a <- at_label idx ts i ;; cell_sub b a) with
    | Raise e => Some (Raise e)
    | Ok frequency =>
        if flt frequency (of_int 1) then frequency_loop fuel idx ts (i + 1)
        else Some (Ok frequency)
    end.
Proof. reflexivity. Qed.



Lemma position_In (l : Z) (idx : list Z) :
  position l idx <> None -> In l idx.
Proof.
  induction idx as [|l' idx IH]; simpl; [congruence|].
  destruct (Z.eqb_spec l' l) as [->|_]; [auto|].
  intros H. right. apply IH. destruct (position l idx); [discriminate | exact H].
Qed.

Lemma at_label_position (idx : list Z) (s : Series) (l : Z) (c : cell) :
  at_label idx s l = Ok c -> position l idx <> None.
Proof. unfold at_label. destruct (position l idx); [discriminate | discriminate]. Qed.

(** A loop that runs out of fuel has found a row for each label it asked
    for. *)
Lemma frequency_loop_None (idx : list Z) (ts : Series) :
  forall fuel i, frequency_loop fuel idx ts i = None ->
  forall j, (j < fuel)%nat -> In (i + 1 + Z.of_nat j) idx.
Proof.
  induction fuel as [|fuel IH]; intros i H j Hj; [lia|].
  rewrite frequency_loop_S in H.
  destruct (at_label idx ts (i + 1)) as [b|e] eqn:Hb; [|discriminate].
  cbn [bind] in H.
  destruct (a <- at_label idx ts i ;; cell_sub b a) as [f|e]; [|discriminate].
  destruct (flt f (of_int 1)); [|discriminate].
  destruct j as [|j].
  - rewrite Z.add_0_r. eapply position_In, at_label_position, Hb.
  - replace (i + 1 + Z.of_nat (S j)) with (i + 1 + 1 + Z.of_nat j) by lia.
    apply IH; [exact H | lia].
Qed.

(** The fuel [infer_frequency] gives the loop is enough: each turn asks for
    a label one higher, and the index has only so many. *)
Lemma frequency_loop_fuel (idx : list Z) (ts : Series) :
  frequency_loop (S (length idx)) idx ts 0 <> None.
Proof.
  intros H.
  pose proof (frequency_loop_None idx ts _ _ H) as Hin.
  set (asked := map (fun j => 0 + 1 + Z.of_nat j) (seq 0 (S (length idx)))).
  assert (Hnd : NoDup asked).
  { apply Injective_map_NoDup; [intros a b; lia | apply seq_NoDup]. }
  assert (Hincl : incl asked idx).
  { intros l Hl. apply in_map_iff in Hl. destruct Hl as (j & <- & Hj).
    apply in_seq in Hj. apply Hin. lia. }
  pose proof (NoDup_incl_length Hnd Hincl) as Hlen.
  unfold asked in Hlen. rewrite length_map, length_seq in Hlen. lia.
Qed.


(** ** Numbers *)

Lemma Qltb_lt (x y : Q) : Qltb x y = true <-> (x < y)%Q.
Proof.
  unfold Qltb. rewrite negb_true_iff, <- not_true_iff_false, Qle_bool_iff.
  split; [apply Qnot_le_lt | apply Qlt_not_le].
Qed.

Lemma Qltb_ge (x y : Q) : Qltb x y = false <-> (y <= x)%Q.
Proof.
  unfold Qltb. rewrite negb_false_iff, Qle_bool_iff. reflexivity.
Qed.





(** ** Slices *)

Lemma upto_from {A : Type} (k : Z) (xs : list A) : upto k xs ++ from k xs = xs.
Proof. apply firstn_skipn. Qed.

Lemma bound_le (n : nat) (k : Z) : (bound n k <= n)%nat.
Proof. unfold bound. destruct (k <? 0) eqn:E; lia. Qed.

Lemma bound_nonneg (n : nat) (k : Z) :
  0 <= k <= Z.of_nat n -> bound n k = Z.to_nat k.
Proof. unfold bound. intros H. destruct (Z.ltb_spec k 0); lia. Qed.

Lemma length_upto {A : Type} (k : Z) (xs : list A) :
  length (upto k xs) = bound (length xs) k.
Proof. unfold upto. rewrite length_firstn. pose proof (bound_le (length xs) k). lia. Qed.

Lemma length_from {A : Type} (k : Z) (xs : list A) :
  length (from k xs) = (length xs - bound (length xs) k)%nat.
Proof. unfold from. apply length_skipn. Qed.

(** ** The stages of preprocess_data *)

Lemma snd_preprocess_data (lib : library) (df : DataFrame) (test_days : Z)
  (scale : bool) :
  snd (preprocess_data lib df test_days scale)
  = (enc <- encoded lib df ;; model_inputs enc test_days scale).
Proof.
  unfold preprocess_data, encoded.
  destruct (derive_features lib df) as [caller [[]|e]]; reflexivity.
Qed.

Lemma fst_preprocess_data (lib : library) (df : DataFrame) (test_days : Z)
  (scale : bool) :
  fst (preprocess_data lib df test_days scale) = fst (derive_features lib df).
Proof.
  unfold preprocess_data. destruct (derive_features lib df); reflexivity.
Qed.

Lemma check_and_return_Ok (out out' : outputs) :
  check_and_return out = Ok out' ->
  out' = out
  /\ any_null (fst (fst (fst out))) = false
  /\ any_null (snd (fst out)) = false.
Proof.
  destruct out as [[[train tg] test] tg']. unfold check_and_return, assert_no_null, py_assert.
  cbn [fst snd].
  destruct (any_null train); cbn; [discriminate|].
  destruct (any_null test); cbn; [discriminate|].
  intros H. injection H as <-. auto.
Qed.

(** What a successful call went through. *)
Lemma split_and_scale_Ok (enc : DataFrame) (test_days : Z) (scale : bool)
  (train test : DataFrame) (train_targets test_targets : list cell) :
  split_and_scale enc test_days scale
  = Ok (train, train_targets, test, test_targets) ->
  exists feat tg f ts,
    select_targets enc = Ok (feat, tg)
    /\ infer_frequency feat = Ok f
    /\ test_start_of feat test_days f = Ok ts
    /\ train_targets = upto ts tg
    /\ test_targets = from ts tg
    /\ (if scale
        then scale_features feat (iloc_upto feat ts) (iloc_from feat ts)
             = Ok (train, test)
        else train = iloc_upto feat ts /\ test = iloc_from feat ts).
Proof.
  unfold split_and_scale, split_index. intros H.
  apply bind_Ok in H. destruct H as ([feat tg] & Hsel & H).
  apply bind_Ok in H. destruct H as (ts & Hts & H).
  apply bind_Ok in Hts. destruct Hts as (f & Hf & Hts).
  apply bind_Ok in H. destruct H as ([train' test'] & Hsc & H).
  injection H as H1 H2 H3 H4. subst train' test' train_targets test_targets.
  exists feat, tg, f, ts. repeat split; auto.
  destruct scale; [exact Hsc|]. injection Hsc as H1 H2. auto.
Qed.

Lemma preprocess_data_Ok (lib : library) (df : DataFrame) (test_days : Z)
  (scale : bool) (out : outputs) :
  snd (preprocess_data lib df test_days scale) = Ok out ->
  exists enc,
    encoded lib df = Ok enc
    /\ split_and_scale enc test_days scale = Ok out
    /\ any_null (fst (fst (fst out))) = false
    /\ any_null (snd (fst out)) = false.
Proof.
  rewrite snd_preprocess_data. unfold model_inputs. intros H.
  apply bind_Ok in H. destruct H as (enc & Henc & H).
  apply bind_Ok in H. destruct H as (out0 & Hout & H).
  apply check_and_return_Ok in H. destruct H as (-> & Htr & Hte).
  exists enc. auto.
Qed.


(** ** Sampling-frequency inference *)


Lemma daily_observations_Some (q : Q) :
  (1 <= q)%Q ->
  exists d, daily_observations (Some q) = Some d /\ (d == 86400 / q)%Q.
Proof.
  intros Hq. unfold daily_observations, fdiv, of_int.
  destruct (Qeq_bool q 0) eqn:E.
  - apply Qeq_bool_eq in E. rewrite E in Hq. unfold Qle in Hq. simpl in Hq. lia.
  - eexists. split; [reflexivity|]. rewrite Qred_correct. reflexivity.
Qed.



Lemma length_RangeIndex (n : nat) : length (RangeIndex n) = n.
Proof. unfold RangeIndex. rewrite length_map. apply length_seq. Qed.






(** ** Frames are rectangular *)

Lemma lookup_In (name : string) (cols : list (string * Series)) (s : Series) :
  lookup name cols = Some s -> In (name, s) cols.
Proof.
  induction cols as [|[n c] cols IH]; simpl; [discriminate|].
  destruct (String.eqb_spec n name) as [->|_].
  - intros H. injection H as ->. auto.
  - auto.
Qed.

Lemma getitem_In (df : DataFrame) (name : string) (s : Series) :
  getitem df name = Ok s -> In (name, s) (columns df).
Proof.
  unfold getitem. destruct (lookup name (columns df)) eqn:E; [|discriminate].
  intros H. injection H as <-. apply lookup_In, E.
Qed.

Lemma well_formed_getitem (df : DataFrame) (name : string) (s : Series) :
  well_formed df -> getitem df name = Ok s -> fits df s.
Proof.
  intros Hwf H. apply getitem_In in H.
  unfold well_formed in Hwf. rewrite Forall_forall in Hwf.
  exact (Hwf _ H).
Qed.

Lemma Forall_assign (P : string * Series -> Prop) (name : string) (s : Series)
  (cols : list (string * Series)) :
  (forall n, P (n, s)) -> Forall P cols -> Forall P (assign name s cols).
Proof.
  intros Hs. induction 1 as [|[n c] cols Hc Hcols IH]; simpl.
  - constructor; [apply Hs | constructor].
  - destruct (String.eqb n name); constructor; auto.
Qed.

Lemma well_formed_setitem (df : DataFrame) (name : string) (s : Series) :
  well_formed df -> fits df s -> well_formed (setitem df name s).
Proof.
  intros Hwf Hs. unfold well_formed, setitem. cbn [index columns].
  apply Forall_assign; [intros n; exact Hs | exact Hwf].
Qed.

Lemma Forall_filter {A : Type} (P : A -> Prop) (f : A -> bool) (l : list A) :
  Forall P l -> Forall P (filter f l).
Proof.
  induction 1 as [|a l Ha _ IH]; simpl; [constructor|].
  destruct (f a); auto.
Qed.

Lemma well_formed_without (names : list string) (df : DataFrame) :
  well_formed df -> well_formed (without names df).
Proof. apply Forall_filter. Qed.

Lemma well_formed_drop (df df' : DataFrame) (names : list string) :
  well_formed df -> drop df names = Ok df' -> well_formed df'.
Proof.
  unfold drop. intros Hwf H.
  destruct (find _ names); [discriminate|]. injection H as <-.
  apply well_formed_without, Hwf.
Qed.

Lemma index_drop (df df' : DataFrame) (names : list string) :
  drop df names = Ok df' -> index df' = index df.
Proof.
  unfold drop. destruct (find _ names); [discriminate|].
  intros H. injection H as <-. reflexivity.
Qed.

(** Row selections that act alike on lists of one length keep a frame
    rectangular. *)
Lemma well_formed_map_rows (fi : list Z -> list Z) (fc : list cell -> list cell)
  (df : DataFrame) :
  (forall cs, length cs = length (index df) ->
              length (fc cs) = length (fi (index df))) ->
  well_formed df -> well_formed (map_rows fi fc df).
Proof.
  intros Hf Hwf. unfold well_formed, map_rows in *. cbn [index columns].
  rewrite Forall_map. eapply Forall_impl; [|exact Hwf].
  intros [n s] Hs. cbn in *. auto.
Qed.

Lemma length_select {A B : Type} (mask : list bool) (xs : list A) (ys : list B) :
  length xs = length ys -> length (select mask xs) = length (select mask ys).
Proof.
  revert xs ys; induction mask as [|b mask IH]; intros [|x xs] [|y ys] H;
    simpl in *; try reflexivity; try discriminate.
  destruct b; simpl; auto.
Qed.

Lemma well_formed_where (df : DataFrame) (mask : list bool) :
  well_formed df -> well_formed (where_ df mask).
Proof.
  apply well_formed_map_rows. intros cs H. apply length_select, H.
Qed.

Lemma well_formed_iloc_upto (df : DataFrame) (k : Z) :
  well_formed df -> well_formed (iloc_upto df k).
Proof.
  apply well_formed_map_rows. intros cs H.
  rewrite !length_upto, H. reflexivity.
Qed.

Lemma well_formed_iloc_from (df : DataFrame) (k : Z) :
  well_formed df -> well_formed (iloc_from df k).
Proof.
  apply well_formed_map_rows. intros cs H.
  rewrite !length_from, H. reflexivity.
Qed.

(** *** Column operations keep the number of cells *)

Lemma length_fillna (s : Series) (v : string) :
  length (cells (fillna s v)) = length (cells s).
Proof. apply length_map. Qed.

Lemma length_DatetimeIndex (lib : library) (s t : Series) :
  DatetimeIndex lib s = Ok t -> length (cells t) = length (cells s).
Proof.
  unfold DatetimeIndex. intros H. apply bind_Ok in H.
  destruct H as (cs & Hcs & H). injection H as <-.
  exact (mapM_length _ _ _ Hcs).
Qed.

Lemma length_dt (field : Z -> Z) (s v : Series) :
  dt field s = Ok v -> length (cells v) = length (cells s).
Proof.
  unfold dt. destruct (kind s); try discriminate.
  intros H. injection H as <-. apply length_map.
Qed.

Lemma length_cyclical (f : Q -> Q) (s v : Series) :
  cyclical f s = Ok v -> length (cells v) = length (cells s).
Proof.
  unfold cyclical. intros H. apply bind_Ok in H.
  destruct H as (xs & Hxs & H). injection H as <-.
  unfold cycle. cbn [numeric cells]. rewrite !length_map.
  exact (mapM_length _ _ _ Hxs).
Qed.

Lemma length_seconds_since_min (s v : Series) :
  seconds_since_min s = Ok v -> length (cells v) = length (cells s).
Proof.
  unfold seconds_since_min. destruct (kind s); try discriminate.
  intros H. injection H as <-. apply length_map.
Qed.

Lemma length_fit_transform (s v : Series) :
  fit_transform s = Ok v -> length (cells v) = length (cells s).
Proof.
  unfold fit_transform. intros H. apply bind_Ok in H.
  destruct H as (classes & _ & H). injection H as <-. apply length_map.
Qed.

Lemma well_formed_get_dummies (lib : library) (df : DataFrame) :
  well_formed df -> well_formed (get_dummies lib df).
Proof.
  unfold well_formed, get_dummies. cbn [index columns]. intros Hwf.
  apply Forall_app. split.
  - apply Forall_filter, Hwf.
  - apply Forall_flat_map. apply Forall_filter.
    eapply Forall_impl; [|exact Hwf].
    intros [n s] Hs. unfold dummies. rewrite Forall_map.
    apply Forall_forall. intros level _. cbn. rewrite length_map. exact Hs.
Qed.

(** ** Reasoning about statements *)

Lemma and_then_Ok {S A B : Type} (c : stateful S A) (k : A -> stateful S B)
  (st st' : S) (b : B) :
  and_then c k st = (st', Ok b) ->
  exists st1 a, c st = (st1, Ok a) /\ k a st1 = (st', Ok b).
Proof.
  unfold and_then. destruct (c st) as [st1 [a|e]]; intros H.
  - eauto.
  - discriminate.
Qed.

Lemma shaped_getitem (idx : list Z) (df : DataFrame) (name : string) (s : Series) :
  shaped idx df -> getitem df name = Ok s -> sized idx s.
Proof.
  intros [<- Hwf] H. exact (well_formed_getitem df name s Hwf H).
Qed.

Lemma shaped_setitem (idx : list Z) (df : DataFrame) (name : string) (s : Series) :
  shaped idx df -> sized idx s -> shaped idx (setitem df name s).
Proof.
  intros [<- Hwf] Hs. split; [reflexivity|].
  apply well_formed_setitem; assumption.
Qed.

Lemma establishes_seq {S A B : Type} (P R : S -> Prop) (c : stateful S A)
  (k : stateful S B) (Q : B -> S -> Prop) :
  establishes P c (fun _ => R) ->
  establishes R k Q ->
  establishes P (and_then c (fun _ => k)) Q.
Proof.
  intros Hc Hk st st' b Hst H.
  apply and_then_Ok in H. destruct H as (st1 & a & Hc1 & H).
  exact (Hk st1 st' b (Hc st st1 a Hst Hc1) H).
Qed.

Section Statements.

Variable idx : list Z.

Lemma shaped_get {A : Type} (name : string) (k : Series -> action A)
  (Q : A -> DataFrame -> Prop) :
  (forall s, sized idx s -> establishes (shaped idx) (k s) Q) ->
  establishes (shaped idx) (and_then (get name) k) Q.
Proof.
  intros Hk df df' a Hdf H.
  apply and_then_Ok in H. destruct H as (df1 & s & Hget & H).
  unfold get in Hget. injection Hget as <- Hget.
  exact (Hk s (shaped_getitem idx df name s Hdf Hget) df df' a Hdf H).
Qed.

Lemma shaped_eval {A B : Type} (r : result A) (k : A -> action B)
  (Q : B -> DataFrame -> Prop) :
  (forall v, r = Ok v -> establishes (shaped idx) (k v) Q) ->
  establishes (shaped idx) (and_then (eval r) k) Q.
Proof.
  intros Hk df df' a Hdf H.
  apply and_then_Ok in H. destruct H as (df1 & v & Hev & H).
  unfold eval in Hev. injection Hev as <- Hev.
  exact (Hk v Hev df df' a Hdf H).
Qed.

Lemma shaped_set {A : Type} (name : string) (v : Series) (k : action A)
  (Q : A -> DataFrame -> Prop) :
  sized idx v ->
  establishes (shaped idx) k Q ->
  establishes (shaped idx) (and_then (set name v) (fun _ => k)) Q.
Proof.
  intros Hv Hk df df' a Hdf H.
  apply and_then_Ok in H. destruct H as (df1 & u & Hset & H).
  unfold set in Hset. injection Hset as <-.
  exact (Hk _ df' a (shaped_setitem idx df name v Hdf Hv) H).
Qed.

Lemma shaped_set_last (name : string) (v : Series) :
  sized idx v ->
  establishes (shaped idx) (set name v) (fun _ => shaped idx).
Proof.
  intros Hv df df' a Hdf H. unfold set in H. injection H as <-.
  exact (shaped_setitem idx df name v Hdf Hv).
Qed.

Lemma shaped_done :
  establishes (shaped idx) (eval (Ok tt)) (fun _ => shaped idx).
Proof. intros df df' a Hdf H. unfold eval in H. injection H as <-. exact Hdf. Qed.

End Statements.

Ltac sized_column :=
  unfold sized in *;
  first
    [ assumption
    | rewrite length_fillna; assumption
    | match goal with
      | H : DatetimeIndex _ _ = Ok _ |- _ => rewrite (length_DatetimeIndex _ _ _ H); assumption
      | H : dt _ _ = Ok _ |- _ => rewrite (length_dt _ _ _ H); assumption
      | H : cyclical _ _ = Ok _ |- _ => rewrite (length_cyclical _ _ _ H); assumption
      end ].

(** The assignments of lines 55-71 keep the caller's frame rectangular,
    with the row labels it had. *)
Lemma derive_features_shaped (lib : library) (idx : list Z) :
  establishes (shaped idx) (derive_features lib) (fun _ => shaped idx).
Proof.
  unfold derive_features. cbn [for_each cyc_features].
  repeat first
    [ apply shaped_get; intros ?s ?Hs
    | apply shaped_eval; intros ?v ?Hv
    | apply shaped_set; [sized_column|]
    | apply shaped_set_last; sized_column
    | apply shaped_done
    | apply (establishes_seq (shaped idx) (shaped idx)) ].
Qed.

Lemma shaped_drop (idx : list Z) (df df' : DataFrame) (names : list string) :
  shaped idx df -> drop df names = Ok df' -> shaped idx df'.
Proof.
  intros [<- Hwf] H. split.
  - exact (index_drop df df' names H).
  - exact (well_formed_drop df df' names Hwf H).
Qed.

Lemma shaped_get_dummies (lib : library) (idx : list Z) (df : DataFrame) :
  shaped idx df -> shaped idx (get_dummies lib df).
Proof.
  intros [<- Hwf]. split; [reflexivity|]. apply well_formed_get_dummies, Hwf.
Qed.

(** Lines 73-85 keep the frame rectangular, with the same row labels. *)
Lemma encode_shaped (lib : library) (idx : list Z) (df enc : DataFrame) :
  shaped idx df -> encode lib df = Ok enc -> shaped idx enc.
Proof.
  unfold encode. intros Hdf H.
  apply bind_Ok in H. destruct H as (df1 & Hdrop & H).
  apply bind_Ok in H. destruct H as (ts & Hts & H).
  apply bind_Ok in H. destruct H as (seconds & Hsec & H).
  apply bind_Ok in H. destruct H as (wde & Hwde & H).
  apply bind_Ok in H. destruct H as (labels & Hlab & H).
  injection H as <-.
  pose proof (shaped_drop idx df df1 _ Hdf Hdrop) as H1.
  assert (H2 : shaped idx (setitem df1 "timestamp" seconds)).
  { apply shaped_setitem; [exact H1|]. unfold sized.
    rewrite (length_seconds_since_min _ _ Hsec).
    exact (shaped_getitem idx df1 _ ts H1 Hts). }
  apply shaped_get_dummies, shaped_setitem; [exact H2|]. unfold sized.
  rewrite (length_fit_transform _ _ Hlab).
  exact (shaped_getitem idx _ _ wde H2 Hwde).
Qed.

(** The frame after line 85 has the caller's row labels and is
    rectangular when the caller's frame is. *)
Lemma encoded_shaped (lib : library) (df enc : DataFrame) :
  well_formed df -> encoded lib df = Ok enc -> shaped (index df) enc.
Proof.
  unfold encoded. intros Hwf H.
  destruct (derive_features lib df) as [caller [[]|e]] eqn:Hd; [|discriminate].
  cbn [bind] in H.
  apply (encode_shaped lib (index df) caller enc); [|exact H].
  exact (derive_features_shaped lib (index df) df caller tt (conj eq_refl Hwf) Hd).
Qed.

(** ** The row filter *)

Lemma positive_is_positive (c : cell) (b : bool) :
  positive c = Ok b -> b = is_positive c.
Proof.
  unfold positive. destruct c; cbn; intros H; try discriminate;
    injection H as <-; reflexivity.
Qed.

Lemma mask_is_positive (cs : list cell) (mask : list bool) :
  mapM positive cs = Ok mask -> mask = map is_positive cs.
Proof.
  revert mask; induction cs as [|c cs IH]; cbn [mapM]; intros mask H.
  - injection H as <-. reflexivity.
  - apply bind_Ok in H. destruct H as (b & Hb & H).
    apply bind_Ok in H. destruct H as (bs & Hbs & H).
    injection H as <-. cbn [map]. f_equal; [apply positive_is_positive, Hb | apply IH, Hbs].
Qed.

Lemma select_map_filter {A : Type} (f : A -> bool) (xs : list A) :
  select (map f xs) xs = filter f xs.
Proof.
  induction xs as [|x xs IH]; cbn; [reflexivity|].
  destruct (f x); rewrite IH; reflexivity.
Qed.

Lemma is_positive_Num (c : cell) :
  is_positive c = true <-> exists q, c = Num q /\ (0 < q)%Q.
Proof.
  destruct c as [q| | |]; cbn; split; try discriminate;
    try (intros (q' & H & _); discriminate).
  - intros H. exists q. split; [reflexivity | apply Qltb_lt, H].
  - intros (q' & H & Hq). injection H as ->. apply Qltb_lt, Hq.
Qed.

Lemma lookup_map_rows (name : string) (fc : list cell -> list cell)
  (cols : list (string * Series)) :
  lookup name (map (fun c => (fst c, on_rows fc (snd c))) cols)
  = option_map (on_rows fc) (lookup name cols).
Proof.
  induction cols as [|[n s] cols IH]; cbn; [reflexivity|].
  destruct (String.eqb n name); [reflexivity | exact IH].
Qed.

Lemma getitem_map_rows (fi : list Z -> list Z) (fc : list cell -> list cell)
  (df : DataFrame) (name : string) :
  getitem (map_rows fi fc df) name
  = (s <- getitem df name ;; Ok (on_rows fc s)).
Proof.
  unfold getitem, map_rows. cbn [columns]. rewrite lookup_map_rows.
  destruct (lookup name (columns df)); reflexivity.
Qed.

(** Lines 87-96: the rows kept are those with a positive [elec_cons], in
    their order; the targets are their [elec_cons] values. *)
Lemma select_targets_Ok (enc feat : DataFrame) (tg : list cell) :
  select_targets enc = Ok (feat, tg) ->
  exists elec_cons,
    getitem enc "elec_cons" = Ok elec_cons
    /\ index feat = select (map is_positive (cells elec_cons)) (index enc)
    /\ tg = filter is_positive (cells elec_cons)
    /\ (well_formed enc -> well_formed feat /\ length tg = length (index feat)).
Proof.
  unfold select_targets. intros H.
  apply bind_Ok in H. destruct H as (elec & Helec & H).
  apply bind_Ok in H. destruct H as (mask & Hmask & H).
  apply mask_is_positive in Hmask. subst mask.
  apply bind_Ok in H. destruct H as (elec' & Helec' & H).
  apply bind_Ok in H. destruct H as (feat' & Hdrop & H).
  injection H as -> <-.
  unfold where_ in Helec'. rewrite getitem_map_rows, Helec in Helec'.
  cbn [bind] in Helec'. injection Helec' as <-. cbn [on_rows cells].
  exists elec. split; [exact Helec|]. split; [|split].
  - rewrite (index_drop _ _ _ Hdrop). reflexivity.
  - apply select_map_filter.
  - intros Hwf.
    assert (Hw : well_formed (where_ enc (map is_positive (cells elec))))
      by (apply well_formed_where, Hwf).
    split; [exact (well_formed_drop _ _ _ Hw Hdrop)|].
    rewrite (index_drop _ _ _ Hdrop). unfold where_, map_rows. cbn [index].
    apply length_select. exact (well_formed_getitem enc _ elec Hwf Helec).
Qed.


(** ** Scaling *)

Lemma check_array_Ok (X : DataFrame) (cols : list (list float)) :
  check_array X = Ok cols ->
  mapM (fun c => to_floats (snd c)) (columns X) = Ok cols
  /\ index X <> [] /\ cols <> [].
Proof.
  unfold check_array. intros H.
  apply bind_Ok in H. destruct H as (cols' & Hcols & H).
  unfold len in H. destruct (index X) as [|l idx]; [discriminate|].
  cbn in H. destruct cols' as [|c cols']; [discriminate|].
  injection H as <-. repeat split; [exact Hcols | discriminate | discriminate].
Qed.

Lemma length_map2 {A B C : Type} (f : A -> B -> C) (l : list A) (l' : list B) :
  length (map2 f l l') = Nat.min (length l) (length l').
Proof. unfold map2. rewrite length_map. apply length_combine. Qed.

Lemma fit_Ok (X : DataFrame) (scaler : MinMaxScaler) :
  fit X = Ok scaler ->
  exists cols,
    check_array X = Ok cols
    /\ data_min_ scaler = map nanmin cols
    /\ data_max_ scaler = map nanmax cols
    /\ length (scale_ scaler) = length cols
    /\ length (min_ scaler) = length cols.
Proof.
  unfold fit. intros H. apply bind_Ok in H. destruct H as (cols & Hcols & H).
  injection H as <-. exists cols. cbn.
  repeat split; auto;
    rewrite ?length_map2, ?length_map, ?length_map2, ?length_map; lia.
Qed.

Lemma transform_Ok (scaler : MinMaxScaler) (X : DataFrame) (a : list (list float)) :
  transform scaler X = Ok a ->
  exists cols,
    check_array X = Ok cols
    /\ length cols = length (scale_ scaler)
    /\ a = map2 (fun col sm => map (fun x => fadd (fmul x (fst sm)) (snd sm)) col)
             cols (combine (scale_ scaler) (min_ scaler)).
Proof.
  unfold transform. intros H. apply bind_Ok in H. destruct H as (cols & Hcols & H).
  destruct (Nat.eqb_spec (length cols) (length (scale_ scaler))) as [E|E];
    cbn in H; [|discriminate].
  injection H as <-. exists cols. auto.
Qed.

Lemma mapM_columns_sized (X : DataFrame) (cols : list (list float)) :
  well_formed X ->
  mapM (fun c => to_floats (snd c)) (columns X) = Ok cols ->
  Forall (fun col => length col = length (index X)) cols.
Proof.
  unfold well_formed. generalize (length (index X)) as n. intros n.
  revert cols. induction (columns X) as [|[name s] l IH]; cbn [mapM]; intros cols Hwf H.
  - injection H as <-. constructor.
  - apply bind_Ok in H. destruct H as (col & Hcol & H).
    apply bind_Ok in H. destruct H as (cols' & Hcols' & H).
    injection H as <-. inversion Hwf as [|? ? Hs Hl].
    constructor; [|apply IH; assumption].
    cbn in Hcol, Hs. unfold to_floats in Hcol.
    rewrite (mapM_length _ _ _ Hcol). exact Hs.
Qed.

(** The array [transform] returns has a row for each row of the frame. *)
Lemma transform_rows (scaler : MinMaxScaler) (X : DataFrame) (a : list (list float)) :
  well_formed X ->
  length (min_ scaler) = length (scale_ scaler) ->
  transform scaler X = Ok a ->
  length (hd [] a) = length (index X).
Proof.
  intros Hwf Hmin H. apply transform_Ok in H.
  destruct H as (cols & Hcheck & Hlen & ->).
  apply check_array_Ok in Hcheck. destruct Hcheck as (Hcols & _ & Hne).
  pose proof (mapM_columns_sized X cols Hwf Hcols) as Hsized.
  destruct cols as [|col cols]; [congruence|].
  destruct (scale_ scaler) as [|s ss]; [discriminate|].
  destruct (min_ scaler) as [|m ms]; [discriminate|].
  cbn. rewrite length_map. inversion Hsized; assumption.
Qed.

(** Scaled tables have as many rows as the tables they come from. *)
Lemma scale_features_rows (df train test train' test' : DataFrame) :
  well_formed train -> well_formed test ->
  scale_features df train test = Ok (train', test') ->
  index train' = RangeIndex (length (index train))
  /\ index test' = RangeIndex (length (index test)).
Proof.
  unfold scale_features. intros Htr Hte H.
  apply bind_Ok in H. destruct H as (scaler & Hfit & H).
  apply bind_Ok in H. destruct H as (a1 & Ha1 & H).
  apply bind_Ok in H. destruct H as (a2 & Ha2 & H).
  injection H as <- <-. unfold DataFrame_of. cbn [index].
  apply fit_Ok in Hfit. destruct Hfit as (cols & _ & _ & _ & Hs & Hm).
  rewrite (transform_rows scaler train a1 Htr ltac:(congruence) Ha1).
  rewrite (transform_rows scaler test a2 Hte ltac:(congruence) Ha2).
  auto.
Qed.







(** ** The split *)

Lemma frequency_loop_not_below_one (idx : list Z) (ts : Series) (f : float) :
  forall fuel i, frequency_loop fuel idx ts i = Some (Ok f) ->
  flt f (of_int 1) = false.
Proof.
  induction fuel as [|fuel IH]; intros i H; [discriminate|].
  rewrite frequency_loop_S in H.
  destruct (b <- at_label idx ts (i + 1) ;; a <- at_label idx ts i ;; cell_sub b a)
    as [g|e]; [|discriminate].
  destruct (flt g (of_int 1)) eqn:E.
  - exact (IH _ H).
  - injection H as <-. exact E.
Qed.

Lemma frequency_loop_rows (idx : list Z) (ts : Series) (r : result float) :
  forall fuel i, frequency_loop fuel idx ts i = Some r ->
  (exists f, r = Ok f) -> In (i + 1) idx \/ exists j, i < j /\ In j idx.
Proof.
  induction fuel as [|fuel IH]; intros i H Hok; [discriminate|].
  rewrite frequency_loop_S in H.
  destruct (at_label idx ts (i + 1)) as [b|e] eqn:Hb.
  - left. eapply position_In, at_label_position, Hb.
  - cbn [bind] in H. injection H as <-. destruct Hok as [f Hf]. discriminate.
Qed.

(** An interval that was inferred is a number from 1 on or NaN, and the
    table has rows. *)
Lemma infer_frequency_Ok (feat : DataFrame) (f : float) :
  infer_frequency feat = Ok f ->
  flt f (of_int 1) = false /\ index feat <> [].
Proof.
  unfold infer_frequency. intros H.
  apply bind_Ok in H. destruct H as (ts & _ & H).
  destruct (frequency_loop _ _ ts 0) as [r|] eqn:Hloop; [|discriminate].
  subst r. split.
  - exact (frequency_loop_not_below_one _ _ _ _ _ Hloop).
  - destruct (frequency_loop_rows _ _ _ _ _ Hloop ltac:(eauto)) as [Hin|(j & _ & Hin)];
      intros E; rewrite E in Hin; exact Hin.
Qed.



Lemma index_iloc (df : DataFrame) (k : Z) :
  index (iloc_upto df k) = upto k (index df)
  /\ index (iloc_from df k) = from k (index df).
Proof. split; reflexivity. Qed.

(** What a successful call computed on the way. *)
Lemma preprocess_data_split (lib : library) (df : DataFrame) (test_days : Z)
  (scale : bool) (train test : DataFrame) (train_targets test_targets : list cell) :
  snd (preprocess_data lib df test_days scale)
  = Ok (train, train_targets, test, test_targets) ->
  exists enc st,
    encoded lib df = Ok enc
    /\ select_targets enc = Ok (features st, targets st)
    /\ infer_frequency (features st) = Ok (frequency st)
    /\ at_split lib df test_days = Ok st
    /\ train_targets = upto (test_start st) (targets st)
    /\ test_targets = from (test_start st) (targets st)
    /\ (if scale
        then scale_features (features st)
               (iloc_upto (features st) (test_start st))
               (iloc_from (features st) (test_start st)) = Ok (train, test)
        else train = iloc_upto (features st) (test_start st)
             /\ test = iloc_from (features st) (test_start st))
    /\ any_null train = false /\ any_null test = false.
Proof.
  intros H. apply preprocess_data_Ok in H.
  destruct H as (enc & Henc & Hsplit & Htr & Hte). cbn [fst snd] in Htr, Hte.
  apply split_and_scale_Ok in Hsplit.
  destruct Hsplit as (feat & tg & f & ts & Hsel & Hf & Hts & Htt & Hte' & Hsc).
  exists enc, {| features := feat; targets := tg; frequency := f; test_start := ts |}.
  cbn [features targets frequency test_start].
  repeat split; auto.
  unfold at_split. rewrite Henc. cbn [bind]. rewrite Hsel. cbn [bind].
  rewrite Hf. cbn [bind]. rewrite Hts. reflexivity.
Qed.













(** ** The final check *)

Lemma final_tables_split (lib : library) (df : DataFrame) (test_days : Z)
  (scale : bool) (train test : DataFrame) :
  final_tables lib df test_days scale = Ok (train, test) <->
  exists enc train_targets test_targets,
    encoded lib df = Ok enc
    /\ split_and_scale enc test_days scale
       = Ok (train, train_targets, test, test_targets).
Proof.
  unfold final_tables. split.
  - intros H. apply bind_Ok in H. destruct H as (enc & Henc & H).
    apply bind_Ok in H. destruct H as ([[[tr tg] te] tg'] & Hs & H).
    apply Ok_inj in H. injection H as <- <-. eauto.
  - intros (enc & tg & tg' & -> & Hs). cbn [bind]. rewrite Hs. reflexivity.
Qed.

(** C7.  A call that returns has passed the check: the tables it returns
    are the final training and testing tables, unchanged, and neither
    holds a missing value.  When the final training table holds one the
    call raises an AssertionError that says so, and likewise for the
    testing table; nothing is filled in. *)
Theorem no_missing_values_get_through :
  forall (lib : library) (df : DataFrame) (test_days : Z) (scale : bool),
    (forall train test train_targets test_targets,
        snd (preprocess_data lib df test_days scale)
        = Ok (train, train_targets, test, test_targets) ->
        final_tables lib df test_days scale = Ok (train, test)
        /\ any_null train = false /\ any_null test = false)
    /\ (forall train test,
          final_tables lib df test_days scale = Ok (train, test) ->
          (any_null train = true ->
           snd (preprocess_data lib df test_days scale)
           = Raise (AssertionError "Training Data Contains Missing Values!"))
          /\ (any_null train = false -> any_null test = true ->
              snd (preprocess_data lib df test_days scale)
              = Raise (AssertionError "Testing Data Contains Missing Values!"))
          /\ (any_null train = false -> any_null test = false ->
              exists train_targets test_targets,
                snd (preprocess_data lib df test_days scale)
                = Ok (train, train_targets, test, test_targets))).
Proof.
  intros lib df test_days scale. split.
  - intros train test tg tg' H. apply preprocess_data_Ok in H.
    destruct H as (enc & Henc & Hs & Htr & Hte). cbn [fst snd] in Htr, Hte.
    repeat split; auto. apply final_tables_split. eauto.
  - intros train test H. apply final_tables_split in H.
    destruct H as (enc & tg & tg' & Henc & Hs).
    rewrite snd_preprocess_data, Henc. cbn [bind].
    unfold model_inputs. rewrite Hs. cbn [bind].
    unfold check_and_return, assert_no_null, py_assert.
    repeat split.
    + intros ->. reflexivity.
    + intros -> ->. reflexivity.
    + intros -> ->. cbn. eauto.
Qed.

Lemma no_missing_values_get_through_witness :
  snd (preprocess_data sample_library holed_frame 1 false)
  = Raise (AssertionError "Training Data Contains Missing Values!").
Proof.
  destruct (final_tables sample_library holed_frame 1 false)
    as [[train test]|e] eqn:E; [|vm_compute in E; discriminate E].
  apply (proj2 (no_missing_values_get_through sample_library holed_frame 1 false)
           train test E).
  vm_compute in E. apply Ok_inj in E. injection E as <- _. reflexivity.
Defined.

(** ** The caller's frame *)

Lemma lookup_assign (name n : string) (s : Series) (cols : list (string * Series)) :
  lookup name (assign n s cols)
  = if String.eqb n name then Some s else lookup name cols.
Proof.
  induction cols as [|[m c] cols IH]; cbn [assign lookup].
  - destruct (String.eqb n name); reflexivity.
  - destruct (String.eqb_spec m n) as [->|Hmn]; cbn [lookup].
    + destruct (String.eqb n name); reflexivity.
    + rewrite IH. destruct (String.eqb_spec m name) as [->|Hm].
      * destruct (String.eqb_spec n name) as [->|_]; [congruence | reflexivity].
      * reflexivity.
Qed.

Lemma getitem_setitem (df : DataFrame) (n name : string) (s : Series) :
  getitem (setitem df n s) name
  = if String.eqb n name then Ok s else getitem df name.
Proof.
  unfold getitem, setitem. cbn [columns]. rewrite lookup_assign.
  destruct (String.eqb n name); reflexivity.
Qed.

Lemma getitem_setitem_other (df : DataFrame) (n name : string) (s : Series) :
  n <> name -> getitem (setitem df n s) name = getitem df name.
Proof.
  intros H. rewrite getitem_setitem.
  destruct (String.eqb_spec n name); [contradiction | reflexivity].
Qed.

Lemma DatetimeIndex_kind (lib : library) (s t : Series) :
  DatetimeIndex lib s = Ok t -> kind t = Datetime.
Proof.
  unfold DatetimeIndex. intros H. apply bind_Ok in H.
  destruct H as (cs & _ & H). apply Ok_inj in H. subst t. reflexivity.
Qed.

Lemma dt_Datetime (field : Z -> Z) (t : Series) :
  kind t = Datetime -> dt field t = Ok (calendar field t).
Proof. unfold dt. intros ->. reflexivity. Qed.

Lemma to_floats_calendar (field : Z -> Z) (t : Series) :
  to_floats (calendar field t) = Ok (calendar_floats field t).
Proof.
  unfold to_floats, calendar, calendar_floats. cbn [cells].
  induction (cells t) as [|c cs IH]; cbn [map mapM]; [reflexivity|].
  rewrite IH. destruct c; reflexivity.
Qed.

Lemma cyclical_floats (f : Q -> Q) (s : Series) (xs : list float) :
  to_floats s = Ok xs -> cyclical f s = Ok (cycle f xs).
Proof. unfold cyclical. intros ->. reflexivity. Qed.

Section Runs.

Context {A : Type} (Q : A -> DataFrame -> Prop) (df : DataFrame).

Lemma runs_get (name : string) (s : Series) (k : Series -> action A) :
  getitem df name = Ok s -> runs (k s) df Q -> runs (and_then (get name) k) df Q.
Proof.
  intros Hs (df' & a & Hk & HQ). exists df', a. split; [|exact HQ].
  unfold and_then, get. rewrite Hs. exact Hk.
Qed.

Lemma runs_eval {B : Type} (r : result B) (v : B) (k : B -> action A) :
  r = Ok v -> runs (k v) df Q -> runs (and_then (eval r) k) df Q.
Proof.
  intros -> (df' & a & Hk & HQ). exists df', a. split; [|exact HQ]. exact Hk.
Qed.

Lemma runs_set (name : string) (v : Series) (k : action A) :
  runs k (setitem df name v) Q -> runs (and_then (set name v) (fun _ => k)) df Q.
Proof.
  intros (df' & a & Hk & HQ). exists df', a. split; [|exact HQ]. exact Hk.
Qed.

Lemma runs_seq {B : Type} (c : action B) (k : action A) :
  runs c df (fun _ df1 => runs k df1 Q) -> runs (and_then c (fun _ => k)) df Q.
Proof.
  intros (df1 & b & Hc & df' & a & Hk & HQ). exists df', a. split; [|exact HQ].
  unfold and_then. rewrite Hc. exact Hk.
Qed.

End Runs.

Lemma runs_set_last (Q : unit -> DataFrame -> Prop) (df : DataFrame)
  (name : string) (v : Series) :
  Q tt (setitem df name v) -> runs (set name v) df Q.
Proof. intros HQ. exists (setitem df name v), tt. split; [reflexivity | exact HQ]. Qed.

Lemma runs_done (Q : unit -> DataFrame -> Prop) (df : DataFrame) :
  Q tt df -> runs (eval (Ok tt)) df Q.
Proof. intros HQ. exists df, tt. split; [reflexivity | exact HQ]. Qed.

(** Comparisons of column names that are written out. *)
Ltac names :=
  repeat match goal with
    | |- context [String.eqb ?a ?b] =>
        let r := eval vm_compute in (String.eqb a b) in
        change (String.eqb a b) with r
    | |- context [String.append ?a ?b] =>
        let r := eval vm_compute in (String.append a b) in
        change (String.append a b) with r
    end;
  cbv iota.

Ltac column := rewrite ?getitem_setitem; names; first [reflexivity | eassumption].

(** One turn of the loop of lines 69-71. *)
Lemma runs_cyclical (lib : library) (Q : unit -> DataFrame -> Prop)
  (df : DataFrame) (feature : string) (col : Series) (xs : list float) :
  getitem df feature = Ok col ->
  to_floats col = Ok xs ->
  (feature ++ "_sin")%string <> feature ->
  Q tt (setitem (setitem df (feature ++ "_sin") (cycle (np_sin lib) xs))
                (feature ++ "_cos") (cycle (np_cos lib) xs)) ->
  runs (s <~ get feature ;;
        v <~ eval (cyclical (np_sin lib) s) ;;
        set (feature ++ "_sin") v ;;;
        s <~ get feature ;;
        v <~ eval (cyclical (np_cos lib) s) ;;
        set (feature ++ "_cos") v) df Q.
Proof.
  intros Hcol Hxs Hne HQ.
  eapply runs_get; [exact Hcol|].
  eapply runs_eval; [apply cyclical_floats, Hxs|].
  apply runs_set.
  eapply runs_get; [rewrite getitem_setitem_other by exact Hne; exact Hcol|].
  eapply runs_eval; [apply cyclical_floats, Hxs|].
  apply runs_set_last. exact HQ.
Qed.

Lemma derive_features_runs (lib : library) (df : DataFrame) (s ts t n : Series)
  (xs : list float) :
  getitem df "sun_rise_set" = Ok s ->
  getitem df "timestamp" = Ok ts ->
  DatetimeIndex lib ts = Ok t ->
  getitem df "num_time" = Ok n ->
  to_floats n = Ok xs ->
  derive_features lib df = (left_behind lib df s t xs, Ok tt).
Proof.
  intros Hs Hts Ht Hn Hxs.
  pose proof (DatetimeIndex_kind lib ts t Ht) as Hk.
  assert (H : runs (derive_features lib) df
                (fun _ df' => df' = left_behind lib df s t xs)).
  { unfold derive_features. cbn [for_each cyc_features].
    eapply runs_get; [exact Hs|]. apply runs_set.
    eapply runs_get; [column|].
    eapply runs_eval; [exact Ht|]. apply runs_set.
    eapply runs_get; [column|].
    eapply runs_eval; [apply dt_Datetime, Hk|]. apply runs_set.
    eapply runs_get; [column|].
    eapply runs_eval; [apply dt_Datetime, Hk|]. apply runs_set.
    eapply runs_get; [column|].
    eapply runs_eval; [apply dt_Datetime, Hk|]. apply runs_set.
    apply runs_seq.
    eapply runs_cyclical; [column | apply to_floats_calendar | discriminate |].
    apply runs_seq.
    eapply runs_cyclical; [column | apply to_floats_calendar | discriminate |].
    apply runs_seq.
    eapply runs_cyclical; [column | apply to_floats_calendar | discriminate |].
    apply runs_seq.
    eapply runs_cyclical; [column | exact Hxs | discriminate |].
    apply runs_done. reflexivity. }
  destruct H as (df' & [] & Hrun & ->). exact Hrun.
Qed.

Lemma fillna_no_null (s : Series) (v : string) :
  existsb is_null (cells (fillna s v)) = false.
Proof.
  unfold fillna. cbn [cells]. induction (cells s) as [|c cs IH]; [reflexivity|].
  cbn [map existsb]. rewrite IH. destruct c; reflexivity.
Qed.

Lemma index_left_behind (lib : library) (df : DataFrame) (s t : Series)
  (xs : list float) :
  index (left_behind lib df s t xs) = index df.
Proof. reflexivity. Qed.




(** ** Columns that the feature engineering leaves alone *)

Section Kept.

Context {A : Type} (I : DataFrame -> Prop) (Q : A -> DataFrame -> Prop).

Lemma kept_get (name : string) (k : Series -> action A) :
  (forall s, establishes I (k s) Q) ->
  establishes I (and_then (get name) k) Q.
Proof.
  intros Hk df df' a Hdf H.
  apply and_then_Ok in H. destruct H as (df1 & s & Hget & H).
  unfold get in Hget. injection Hget as <- _.
  exact (Hk s df df' a Hdf H).
Qed.

Lemma kept_eval {B : Type} (r : result B) (k : B -> action A) :
  (forall v, establishes I (k v) Q) ->
  establishes I (and_then (eval r) k) Q.
Proof.
  intros Hk df df' a Hdf H.
  apply and_then_Ok in H. destruct H as (df1 & v & Hev & H).
  unfold eval in Hev. injection Hev as <- _.
  exact (Hk v df df' a Hdf H).
Qed.

Lemma kept_set (name : string) (v : Series) (k : action A) :
  (forall df, I df -> I (setitem df name v)) ->
  establishes I k Q ->
  establishes I (and_then (set name v) (fun _ => k)) Q.
Proof.
  intros Hset Hk df df' a Hdf H.
  apply and_then_Ok in H. destruct H as (df1 & u & Hs & H).
  unfold set in Hs. injection Hs as <-.
  exact (Hk _ df' a (Hset df Hdf) H).
Qed.

End Kept.

Lemma kept_set_last (I : DataFrame -> Prop) (name : string) (v : Series) :
  (forall df, I df -> I (setitem df name v)) ->
  establishes I (set name v) (fun _ => I).
Proof.
  intros Hset df df' a Hdf H. unfold set in H. injection H as <-.
  exact (Hset df Hdf).
Qed.

Lemma kept_done (I : DataFrame -> Prop) :
  establishes I (eval (Ok tt)) (fun _ => I).
Proof. intros df df' a Hdf H. unfold eval in H. injection H as <-. exact Hdf. Qed.

(** Lines 55-71 do not assign to [elec_cons]. *)
Lemma derive_features_elec_cons (lib : library) (r : result Series) :
  establishes (fun df => getitem df "elec_cons" = r) (derive_features lib)
    (fun _ df => getitem df "elec_cons" = r).
Proof.
  unfold derive_features. cbn [for_each cyc_features].
  repeat first
    [ apply kept_get; intros ?s
    | apply kept_eval; intros ?v
    | apply kept_set;
      [intros ?df ?Hdf; rewrite getitem_setitem; names; assumption|]
    | apply kept_set_last;
      intros ?df ?Hdf; rewrite getitem_setitem; names; assumption
    | apply kept_done
    | apply (establishes_seq (fun df => getitem df "elec_cons" = r)
                             (fun df => getitem df "elec_cons" = r)) ].
Qed.

Lemma lookup_filter_names (p : string -> bool) (name : string)
  (cols : list (string * Series)) :
  lookup name (filter (fun c => p (fst c)) cols)
  = if p name then lookup name cols else None.
Proof.
  induction cols as [|[n s] cols IH]; cbn [filter lookup fst].
  - destruct (p name); reflexivity.
  - destruct (String.eqb_spec n name) as [->|Hn].
    + destruct (p name) eqn:E; cbn [lookup].
      * rewrite String.eqb_refl. reflexivity.
      * exact IH.
    + destruct (p n); cbn [lookup].
      * destruct (String.eqb_spec n name); [contradiction | exact IH].
      * exact IH.
Qed.

Lemma getitem_drop (df df' : DataFrame) (names : list string) (name : string) :
  drop df names = Ok df' -> mem name names = false ->
  getitem df' name = getitem df name.
Proof.
  unfold drop. destruct (find _ names); [discriminate|].
  intros H Hname. apply Ok_inj in H. subst df'.
  unfold getitem, without. cbn [columns].
  rewrite (lookup_filter_names (fun n => negb (mem n names))), Hname.
  reflexivity.
Qed.

Lemma lookup_numeric_first (name : string) (s : Series)
  (cols rest : list (string * Series)) :
  lookup name cols = Some s -> is_object s = false ->
  lookup name (filter (fun c => negb (is_object (snd c))) cols ++ rest) = Some s.
Proof.
  intros H Hs. induction cols as [|[n c] cols IH]; cbn [lookup] in H; [discriminate|].
  cbn [filter snd]. destruct (String.eqb_spec n name) as [->|Hn].
  - injection H as ->. rewrite Hs. cbn. rewrite String.eqb_refl. reflexivity.
  - destruct (is_object c); cbn; [exact (IH H)|].
    destruct (String.eqb_spec n name); [contradiction | exact (IH H)].
Qed.

Lemma getitem_get_dummies (lib : library) (df : DataFrame) (name : string)
  (s : Series) :
  getitem df name = Ok s -> is_object s = false ->
  getitem (get_dummies lib df) name = Ok s.
Proof.
  unfold getitem, get_dummies. cbn [columns].
  destruct (lookup name (columns df)) as [s'|] eqn:E; [|discriminate].
  intros H Hs. apply Ok_inj in H. subst s'.
  rewrite (lookup_numeric_first name s _ _ E Hs). reflexivity.
Qed.

(** A numeric [elec_cons] column reaches the row filter as the caller
    passed it. *)
Lemma encoded_elec_cons (lib : library) (df enc : DataFrame) (col : Series) :
  encoded lib df = Ok enc ->
  getitem df "elec_cons" = Ok col ->
  is_object col = false ->
  getitem enc "elec_cons" = Ok col.
Proof.
  unfold encoded. intros H Hcol Hobj.
  destruct (derive_features lib df) as [caller [[]|e]] eqn:Hd; [|discriminate].
  cbn [bind] in H.
  pose proof (derive_features_elec_cons lib (Ok col) df caller tt Hcol Hd) as Hc.
  unfold encode in H.
  apply bind_Ok in H. destruct H as (df1 & Hdrop & H).
  apply bind_Ok in H. destruct H as (ts & _ & H).
  apply bind_Ok in H. destruct H as (seconds & _ & H).
  apply bind_Ok in H. destruct H as (wde & _ & H).
  apply bind_Ok in H. destruct H as (labels & _ & H).
  apply Ok_inj in H. subst enc.
  apply getitem_get_dummies; [|exact Hobj].
  rewrite !getitem_setitem. names.
  rewrite (getitem_drop _ _ _ "elec_cons" Hdrop eq_refl). exact Hc.
Qed.

(** ** The targets *)

(** C10.  The targets a call returns are the elec_cons values of the
    filtered table as they stand (the caller's values, when its column is
    numeric), cut at the split index; a call with the other value of
    scale, if it returns, returns the same targets.  Only the feature
    tables go through the scaler. *)
Theorem targets_are_not_scaled :
  forall (lib : library) (df : DataFrame) (test_days : Z) (scale : bool)
         (train test : DataFrame) (train_targets test_targets : list cell),
    snd (preprocess_data lib df test_days scale)
    = Ok (train, train_targets, test, test_targets) ->
    exists enc elec_cons st,
      encoded lib df = Ok enc
      /\ getitem enc "elec_cons" = Ok elec_cons
      /\ at_split lib df test_days = Ok st
      /\ targets st = filter is_positive (cells elec_cons)
      /\ train_targets = upto (test_start st) (targets st)
      /\ test_targets = from (test_start st) (targets st)
      /\ train_targets ++ test_targets = filter is_positive (cells elec_cons)
      /\ (forall col, getitem df "elec_cons" = Ok col -> is_object col = false ->
                      elec_cons = col)
      /\ (forall scale' train' test' train_targets' test_targets',
            snd (preprocess_data lib df test_days scale')
            = Ok (train', train_targets', test', test_targets') ->
            train_targets' = train_targets /\ test_targets' = test_targets).
Proof.
  intros lib df test_days scale train test train_targets test_targets H.
  apply preprocess_data_split in H.
  destruct H as (enc & st & Henc & Hsel & _ & Hat & Htt & Hte & _).
  destruct (select_targets_Ok _ _ _ Hsel) as (elec & Helec & _ & Htg & _).
  exists enc, elec, st. subst train_targets test_targets.
  repeat split; auto.
  - rewrite upto_from. exact Htg.
  - intros col Hcol Hobj.
    pose proof (encoded_elec_cons lib df enc col Henc Hcol Hobj) as Hc.
    rewrite Helec in Hc. exact (Ok_inj _ _ Hc).
  - apply preprocess_data_split in H.
    destruct H as (_ & st' & _ & _ & _ & Hat' & -> & _).
    rewrite Hat in Hat'. apply Ok_inj in Hat'. subst st'. reflexivity.
  - apply preprocess_data_split in H.
    destruct H as (_ & st' & _ & _ & _ & Hat' & _ & -> & _).
    rewrite Hat in Hat'. apply Ok_inj in Hat'. subst st'. reflexivity.
Qed.

Lemma targets_are_not_scaled_witness :
  exists train test train' test' tg tg',
    snd (preprocess_data sample_library half_years 183 true) = Ok (train, tg, test, tg')
    /\ snd (preprocess_data sample_library half_years 183 false) = Ok (train', tg, test', tg')
    /\ tg ++ tg' = [Num 3; Num 4; Num 5].
Proof.
  destruct (snd (preprocess_data sample_library half_years 183 true))
    as [[[[train tg] test] tg']|e] eqn:E; [|vm_compute in E; discriminate E].
  destruct (snd (preprocess_data sample_library half_years 183 false))
    as [[[[train' tg0] test'] tg0']|e] eqn:E'; [|vm_compute in E'; discriminate E'].
  destruct (targets_are_not_scaled sample_library half_years 183 true
              train test tg tg' E)
    as (enc & elec & st & _ & _ & _ & _ & _ & _ & _ & _ & Hsame).
  destruct (Hsame false train' test' tg0 tg0' E') as [-> ->].
  exists train, test, train', test', tg, tg'.
  split; [reflexivity|]. split; [reflexivity|].
  vm_compute in E. apply Ok_inj in E.
  injection E as _ <- _ <-. reflexivity.
Defined.

(** C8.  Rows whose elec_cons is not above 0 are dropped before the
    targets are taken.  The elec_cons column that is filtered is the
    caller's when that is a numeric column; the targets returned are its
    positive values in their order, every one a number above 0, selected
    by the mask that selects the rows; each returned table has a row for
    each of its targets; and the rows of the tables returned without
    scaling carry the labels of the rows with a positive elec_cons, and no
    other. *)
Theorem nonpositive_rows_are_dropped :
  forall (lib : library) (df : DataFrame) (test_days : Z) (scale : bool)
         (train test : DataFrame) (train_targets test_targets : list cell),
    well_formed df ->
    snd (preprocess_data lib df test_days scale)
    = Ok (train, train_targets, test, test_targets) ->
    exists enc elec_cons,
      encoded lib df = Ok enc
      /\ index enc = index df
      /\ getitem enc "elec_cons" = Ok elec_cons
      /\ (forall col, getitem df "elec_cons" = Ok col -> is_object col = false ->
                      elec_cons = col)
      /\ train_targets ++ test_targets = filter is_positive (cells elec_cons)
      /\ train_targets ++ test_targets
         = select (map is_positive (cells elec_cons)) (cells elec_cons)
      /\ Forall (fun c => exists q, c = Num q /\ (0 < q)%Q)
                (train_targets ++ test_targets)
      /\ length (index train) = length train_targets
      /\ length (index test) = length test_targets
      /\ (scale = false ->
          index train ++ index test
          = select (map is_positive (cells elec_cons)) (index df)).
Proof.
  intros lib df test_days scale train test train_targets test_targets Hwf H.
  apply preprocess_data_split in H.
  destruct H as (enc & st & Henc & Hsel & _ & Hat & Htt & Hte & Hsc & _).
  destruct (select_targets_Ok _ _ _ Hsel) as (elec & Helec & Hidx & Htg & Hfeat).
  destruct (encoded_shaped lib df enc Hwf Henc) as [Hienc Hwfenc].
  destruct (Hfeat Hwfenc) as [Hwfeat Hlen].
  assert (Hall : train_targets ++ test_targets = filter is_positive (cells elec)).
  { subst train_targets test_targets. rewrite upto_from. exact Htg. }
  assert (Hrows :
    length (index (iloc_upto (features st) (test_start st))) = length train_targets
    /\ length (index (iloc_from (features st) (test_start st))) = length test_targets).
  { subst train_targets test_targets.
    destruct (index_iloc (features st) (test_start st)) as [-> ->].
    rewrite !length_upto, !length_from, Hlen. auto. }
  exists enc, elec. repeat split; auto.
  - intros col Hcol Hobj.
    pose proof (encoded_elec_cons lib df enc col Henc Hcol Hobj) as Hc.
    rewrite Helec in Hc. exact (Ok_inj _ _ Hc).
  - rewrite Hall. symmetry. apply select_map_filter.
  - rewrite Hall. apply Forall_forall. intros c Hc.
    apply filter_In in Hc. apply is_positive_Num, Hc.
  - destruct scale.
    + destruct (scale_features_rows _ _ _ _ _
                  (well_formed_iloc_upto _ (test_start st) Hwfeat)
                  (well_formed_iloc_from _ (test_start st) Hwfeat) Hsc) as [-> _].
      rewrite length_RangeIndex. apply Hrows.
    + destruct Hsc as [-> _]. apply Hrows.
  - destruct scale.
    + destruct (scale_features_rows _ _ _ _ _
                  (well_formed_iloc_upto _ (test_start st) Hwfeat)
                  (well_formed_iloc_from _ (test_start st) Hwfeat) Hsc) as [_ ->].
      rewrite length_RangeIndex. apply Hrows.
    + destruct Hsc as [_ ->]. apply Hrows.
  - intros ->. destruct Hsc as [-> ->].
    destruct (index_iloc (features st) (test_start st)) as [-> ->].
    rewrite upto_from, Hidx, Hienc. reflexivity.
Qed.

Lemma rectangular_well_formed (df : DataFrame) :
  rectangular df = true -> well_formed df.
Proof.
  unfold rectangular, well_formed. rewrite forallb_forall, Forall_forall.
  intros H c Hc. apply Nat.eqb_eq, H, Hc.
Qed.

Lemma nonpositive_rows_are_dropped_witness :
  exists train test train_targets test_targets,
    snd (preprocess_data sample_library late_gap_frame 1 false)
    = Ok (train, train_targets, test, test_targets)
    /\ index train ++ index test = [0; 1; 3]
    /\ train_targets ++ test_targets = [Num 3; Num 4; Num 5].
Proof.
  destruct (snd (preprocess_data sample_library late_gap_frame 1 false))
    as [[[[train tg] test] tg']|e] eqn:E; [|vm_compute in E; discriminate E].
  destruct (nonpositive_rows_are_dropped sample_library late_gap_frame 1 false
              train test tg tg' (rectangular_well_formed late_gap_frame eq_refl) E)
    as (enc & elec & Henc & _ & Helec & _ & Htg & _ & _ & _ & _ & Hidx).
  exists train, test, tg, tg'. split; [reflexivity|].
  rewrite (Hidx eq_refl), Htg.
  vm_compute in Henc. apply Ok_inj in Henc. subst enc.
  vm_compute in Helec. apply Ok_inj in Helec. subst elec.
  split; reflexivity.
Defined.

(** ** The harness *)

(** C6.  When preprocessing raises, whatever the exception, the harness
    does not raise: it prints one line with the exception's message and
    returns None.  No model is run: the outcome is the same for every model
    runner and the state the runs act on is as it was. *)
Theorem harness_recovers :
  forall (lib : library) (world : Type)
         (implement_model : estimator -> DataFrame -> list cell -> DataFrame ->
                            list cell -> string -> stateful world Result)
         (df df' : DataFrame) (w : world) (e : exn),
    preprocess_data lib df 183 true = (df', Raise e) ->
    evaluate_models lib world implement_model df w
    = {| caller := df';
         stdout := [("Error processing data:  " ++ message e)%string];
         after := w;
         returned := Ok None |}
    /\ (forall implement_model',
          evaluate_models lib world implement_model' df w
          = evaluate_models lib world implement_model df w).
Proof.
  intros lib world implement_model df df' w e H.
  unfold evaluate_models. rewrite H. split; reflexivity.
Qed.

Lemma harness_recovers_witness :
  returned Z (evaluate_models sample_library Z sample_runner empty_frame 0) = Ok None
  /\ stdout Z (evaluate_models sample_library Z sample_runner empty_frame 0)
     = ["Error processing data:  'sun_rise_set'"%string].
Proof.
  destruct (harness_recovers sample_library Z sample_runner empty_frame empty_frame 0
              (KeyError (Name "sun_rise_set")) eq_refl) as [-> _].
  split; reflexivity.
Defined.

Section Runs_of_models.

Context {world : Type}
  (implement_model : estimator -> DataFrame -> list cell -> DataFrame ->
                     list cell -> string -> stateful world Result)
  (train : DataFrame) (train_targets : list cell)
  (test : DataFrame) (test_targets : list cell).

Lemma run_each_cons_Ok (m : estimator) (name : string)
  (models : list (estimator * string)) (w w' : world) (rows : list Result) :
  run_each implement_model ((m, name) :: models)
    train train_targets test test_targets w = (w', Ok rows) ->
  exists w1 r rs,
    implement_model m train train_targets test test_targets name w = (w1, Ok r)
    /\ run_each implement_model models train train_targets test test_targets w1
       = (w', Ok rs)
    /\ rows = r :: rs.
Proof.
  cbn [run_each]. intros H.
  apply and_then_Ok in H. destruct H as (w1 & r & Hr & H).
  apply and_then_Ok in H. destruct H as (w2 & rs & Hrs & H).
  unfold eval in H. injection H as <- <-.
  exists w1, r, rs. auto.
Qed.



End Runs_of_models.



(** * Further properties *)

(** ** The inference loop *)

(** X1.  The loop of lines 102-106 ends on every table: within one turn
    more than the table has rows it has found an interval or has raised,
    whatever the row labels and the timestamps are. *)
Theorem infer_frequency_terminates :
  forall (idx : list Z) (timestamp : Series),
    exists r, frequency_loop (S (length idx)) idx timestamp 0 = Some r.
Proof.
  intros idx ts.
  destruct (frequency_loop (S (length idx)) idx ts 0) as [r|] eqn:E.
  - exists r. reflexivity.
  - exfalso. exact (frequency_loop_fuel idx ts E).
Qed.

Lemma frequency_loop_first_rows (idx : list Z) (ts : Series) (f : float)
  (fuel : nat) :
  frequency_loop fuel idx ts 0 = Some (Ok f) -> In 0 idx /\ In 1 idx.
Proof.
  destruct fuel as [|fuel]; [discriminate|].
  rewrite frequency_loop_S. change (0 + 1) with 1.
  destruct (at_label idx ts 1) as [b|e] eqn:Hb; [|discriminate].
  cbn [bind].
  destruct (at_label idx ts 0) as [a|e] eqn:Ha; [|discriminate].
  intros _. split; eapply position_In, at_label_position; eassumption.
Qed.

(** The first turn of the loop reads the rows labelled 1 and 0. *)
Lemma infer_frequency_first_rows (feat : DataFrame) (f : float) :
  infer_frequency feat = Ok f -> In 0 (index feat) /\ In 1 (index feat).
Proof.
  unfold infer_frequency. intros H.
  apply bind_Ok in H. destruct H as (ts & _ & H).
  destruct (frequency_loop _ _ ts 0) as [r|] eqn:Hloop; [|discriminate].
  subst r. exact (frequency_loop_first_rows _ _ _ _ Hloop).
Qed.

(** X2.  An interval that the loop yields is never below one second: it is
    a number from 1 on, so that line 109 does not divide by zero and gives
    at most 86400 observations a day, or it is NaN (a timestamp was
    missing), and then line 112 raises ValueError. *)
Theorem interval_at_least_one_second :
  forall (df : DataFrame) (f : float),
    infer_frequency df = Ok f ->
    match f with
    | Some q =>
        (1 <= q)%Q
        /\ exists d, daily_observations f = Some d
                     /\ (d == 86400 / q)%Q /\ (0 < d <= 86400)%Q
    | None =>
        forall test_days,
          test_start_of df test_days f
          = Raise (ValueError "cannot convert float NaN to integer")
    end.
Proof.
  intros df f H. apply infer_frequency_Ok in H. destruct H as [Hf _].
  destruct f as [q|]; [|reflexivity].
  cbn in Hf. apply Qltb_ge in Hf.
  change (inject_Z 1) with 1%Q in Hf.
  split; [exact Hf|].
  destruct (daily_observations_Some q Hf) as (d & Hd & Heq).
  exists d. split; [exact Hd|]. split; [exact Heq|].
  rewrite Heq. split.
  - apply Qlt_shift_div_l; lra.
  - apply Qle_shift_div_r; lra.
Qed.

Lemma interval_at_least_one_second_witness :
  exists d, daily_observations (Some 2%Q) = Some d /\ (0 < d <= 86400)%Q.
Proof.
  destruct (interval_at_least_one_second subsecond_features (Some 2%Q) eq_refl)
    as (_ & d & Hd & _ & Hbound).
  exists d. split; assumption.
Defined.

(** ** Rows that the filter drops *)

Lemma In_select_range (mask : list bool) (l : Z) :
  forall n s, In l (select mask (map Z.of_nat (seq s n))) ->
  exists j, l = Z.of_nat (s + j) /\ nth_error mask j = Some true.
Proof.
  induction mask as [|b mask IH]; intros n s H; [destruct n; contradiction|].
  destruct n as [|n]; [contradiction|].
  cbn [seq map select] in H. destruct b.
  - destruct H as [<-|H].
    + exists O. rewrite Nat.add_0_r. auto.
    + destruct (IH n (S s) H) as (j & -> & Hj). exists (S j).
      split; [f_equal; lia | exact Hj].
  - destruct (IH n (S s) H) as (j & -> & Hj). exists (S j).
    split; [f_equal; lia | exact Hj].
Qed.

(** A row of a frame with the default labels is left by the filter only
    if its mask entry is true. *)
Lemma In_select_RangeIndex (mask : list bool) (n i : nat) :
  In (Z.of_nat i) (select mask (RangeIndex n)) -> nth_error mask i = Some true.
Proof.
  intros H. destruct (In_select_range mask _ n 0%nat H) as (j & Hj & Hm).
  cbn in Hj. apply Nat2Z.inj in Hj. subst j. exact Hm.
Qed.

(** Lines 55-85 leave the row labels as they are. *)
Lemma derive_features_index (lib : library) (idx : list Z) :
  establishes (fun d => index d = idx) (derive_features lib)
    (fun _ d => index d = idx).
Proof.
  unfold derive_features. cbn [for_each cyc_features].
  repeat first
    [ apply kept_get; intros ?s
    | apply kept_eval; intros ?v
    | apply kept_set; [intros ?d ?Hd; exact Hd|]
    | apply kept_set_last; intros ?d ?Hd; exact Hd
    | apply kept_done
    | apply (establishes_seq (fun d => index d = idx) (fun d => index d = idx)) ].
Qed.

Lemma encoded_index (lib : library) (df enc : DataFrame) :
  encoded lib df = Ok enc -> index enc = index df.
Proof.
  unfold encoded. intros H.
  destruct (derive_features lib df) as [caller [[]|e]] eqn:Hd; [|discriminate].
  cbn [bind] in H.
  pose proof (derive_features_index lib (index df) df caller tt eq_refl Hd) as Hc.
  unfold encode in H.
  apply bind_Ok in H. destruct H as (df1 & Hdrop & H).
  apply bind_Ok in H. destruct H as (ts & _ & H).
  apply bind_Ok in H. destruct H as (seconds & _ & H).
  apply bind_Ok in H. destruct H as (wde & _ & H).
  apply bind_Ok in H. destruct H as (labels & _ & H).
  apply Ok_inj in H. subst enc. cbn [get_dummies index setitem].
  rewrite (index_drop _ _ _ Hdrop). exact Hc.
Qed.

(** X3.  The loop of lines 102-106 looks rows up by label in the filtered
    frame, whose labels line 88 does not renumber.  So on a frame with the
    default labels and a numeric elec_cons, when the first or the second
    row has an elec_cons that is not above 0 (or there is no such row), no
    call returns, whatever the other rows hold. *)
Theorem dropped_leading_row_fails :
  forall (lib : library) (df : DataFrame) (test_days : Z) (scale : bool)
         (elec_cons : Series) (i : nat),
    index df = RangeIndex (length (index df)) ->
    getitem df "elec_cons" = Ok elec_cons ->
    is_object elec_cons = false ->
    (i = 0 \/ i = 1)%nat ->
    (forall c, nth_error (cells elec_cons) i = Some c -> is_positive c = false) ->
    fails (snd (preprocess_data lib df test_days scale)).
Proof.
  intros lib df test_days scale col i Hidx Hcol Hobj Hi Hdrop.
  destruct (snd (preprocess_data lib df test_days scale))
    as [[[[train tg] test] tg']|e] eqn:E; [|exists e; reflexivity].
  exfalso. apply preprocess_data_split in E.
  destruct E as (enc & st & Henc & Hsel & Hf & _).
  destruct (select_targets_Ok _ _ _ Hsel) as (elec & Helec & Hfeat & _).
  rewrite (encoded_elec_cons lib df enc col Henc Hcol Hobj) in Helec.
  apply Ok_inj in Helec. subst elec.
  assert (Hlab : index enc = RangeIndex (length (index df))).
  { rewrite (encoded_index lib df enc Henc). exact Hidx. }
  destruct (infer_frequency_first_rows _ _ Hf) as [H0 H1].
  rewrite Hfeat, Hlab in H0, H1.
  assert (Hin : In (Z.of_nat i)
                   (select (map is_positive (cells col))
                           (RangeIndex (length (index df))))).
  { destruct Hi as [->| ->]; assumption. }
  apply In_select_RangeIndex in Hin.
  rewrite nth_error_map in Hin.
  destruct (nth_error (cells col) i) as [c|]; [|discriminate].
  cbn in Hin. rewrite (Hdrop c eq_refl) in Hin. discriminate.
Qed.

Lemma dropped_leading_row_fails_witness :
  fails (snd (preprocess_data sample_library gap_frame 1 true)).
Proof.
  apply (dropped_leading_row_fails sample_library gap_frame 1 true
           {| kind := Numeric; cells := [Num 3; Num 0; Num 5; Num 6] |} 1%nat).
  - reflexivity.
  - reflexivity.
  - reflexivity.
  - right. reflexivity.
  - intros c H. cbn in H. injection H as <-. reflexivity.
Defined.

(** ** Partitions without rows *)

Lemma check_array_rows (X : DataFrame) :
  index X = [] -> fails (check_array X).
Proof.
  intros H. destruct (check_array X) as [cols|e] eqn:E; [|exists e; reflexivity].
  apply check_array_Ok in E. destruct E as (_ & Hne & _). contradiction.
Qed.

Lemma bound_zero (n : nat) (k : Z) :
  k = 0 \/ k <= - Z.of_nat n -> bound n k = 0%nat.
Proof. unfold bound. intros H. destruct (Z.ltb_spec k 0); lia. Qed.

(** X4.  With scale true a partition without rows makes the call fail:
    the scaler refuses a table of no rows, in fit for the training
    partition and in transform for the testing one.  The training
    partition has no rows when test_start is 0 or is at most minus the
    number of rows. *)
Theorem empty_partition_fails_scaling :
  forall (lib : library) (df : DataFrame) (test_days : Z) (st : split_point),
    at_split lib df test_days = Ok st ->
    let train_rows := iloc_upto (features st) (test_start st) in
    let test_rows := iloc_from (features st) (test_start st) in
    ((test_start st = 0 \/ test_start st <= - len (features st)) ->
     index train_rows = [])
    /\ (index train_rows = [] \/ index test_rows = [] ->
        fails (snd (preprocess_data lib df test_days true))).
Proof.
  intros lib df test_days st Hat train_rows test_rows. split.
  - intros Hts. unfold train_rows.
    destruct (index_iloc (features st) (test_start st)) as [-> _].
    unfold upto. rewrite bound_zero; [reflexivity | exact Hts].
  - intros Hempty.
    destruct (snd (preprocess_data lib df test_days true))
      as [[[[train tg] test] tg']|e] eqn:E; [|exists e; reflexivity].
    exfalso. apply preprocess_data_split in E.
    destruct E as (enc & st' & _ & _ & _ & Hat' & _ & _ & Hsc & _).
    rewrite Hat in Hat'. apply Ok_inj in Hat'. subst st'.
    unfold scale_features in Hsc.
    apply bind_Ok in Hsc. destruct Hsc as (scaler & Hfit & Hsc).
    apply bind_Ok in Hsc. destruct Hsc as (a & Ha & Hsc).
    apply bind_Ok in Hsc. destruct Hsc as (b & Hb & _).
    apply transform_Ok in Ha. destruct Ha as (cols & Hc & _).
    apply transform_Ok in Hb. destruct Hb as (cols' & Hc' & _).
    apply check_array_Ok in Hc. apply check_array_Ok in Hc'.
    destruct Hc as (_ & Hne & _). destruct Hc' as (_ & Hne' & _).
    destruct Hempty; contradiction.
Qed.

Lemma empty_partition_fails_scaling_witness :
  fails (snd (preprocess_data sample_library four_days 183 true))
  /\ exists out, snd (preprocess_data sample_library four_days 183 false) = Ok out.
Proof.
  destruct (at_split sample_library four_days 183) as [st|e] eqn:E;
    [|vm_compute in E; discriminate E].
  destruct (empty_partition_fails_scaling sample_library four_days 183 st E)
    as [Hempty Hfails].
  split.
  - apply Hfails. left. apply Hempty. right.
    vm_compute in E. apply Ok_inj in E. subst st. vm_compute. discriminate.
  - destruct (snd (preprocess_data sample_library four_days 183 false))
      as [out|e] eqn:E'; [exists out; reflexivity | vm_compute in E'; discriminate E'].
Defined.

(** ** Model runs that raise *)

Section Failing_runs.

Context {world : Type}
  (implement_model : estimator -> DataFrame -> list cell -> DataFrame ->
                     list cell -> string -> stateful world Result)
  (train : DataFrame) (train_targets : list cell)
  (test : DataFrame) (test_targets : list cell).

(** The six calls of the harness are the runs of the roster. *)
Lemma run_models_is_run_each (lib : library) (w : world) :
  run_models lib world implement_model train train_targets test test_targets w
  = let (w', r) := run_each implement_model roster
                     train train_targets test test_targets w in
    (w', rows <- r ;; Ok (coerce_numeric lib (results_frame rows))).
Proof.
  unfold run_models, roster. cbn [run_each]. unfold and_then, eval.
  repeat match goal with
         | |- context [implement_model ?m ?a ?b ?c ?d ?n ?w0] =>
             destruct (implement_model m a b c d n w0) as [? [?|?]];
             try reflexivity
         end.
Qed.

(** A run that raises ends the runs: the models after it are not run. *)
Lemma run_each_raises (before after : list (estimator * string))
  (m : estimator) (name : string) (rows : list Result) (w w1 w2 : world) (e : exn) :
  run_each implement_model before train train_targets test test_targets w
  = (w1, Ok rows) ->
  implement_model m train train_targets test test_targets name w1 = (w2, Raise e) ->
  run_each implement_model (before ++ (m, name) :: after)
    train train_targets test test_targets w
  = (w2, Raise e).
Proof.
  revert rows w. induction before as [|[m0 n0] before IH]; intros rows w Hb Hm.
  - cbn in Hb. unfold eval in Hb. injection Hb as <- _.
    cbn [app run_each]. unfold and_then. rewrite Hm. reflexivity.
  - apply run_each_cons_Ok in Hb. destruct Hb as (w0 & r & rs & Hr & Hrs & ->).
    cbn [app run_each]. unfold and_then at 1. rewrite Hr.
    unfold and_then at 1. rewrite (IH rs w0 Hrs Hm). reflexivity.
Qed.

End Failing_runs.

(** X5.  The try of the harness covers preprocessing only.  When the data
    is there and a model run raises, after the runs before it have
    returned, [evaluate_models] raises that exception: nothing is printed,
    no table is returned, and the models later in the roster are not
    run (the state is the one the failing run left). *)
Theorem model_exception_propagates :
  forall (lib : library) (world : Type)
         (implement_model : estimator -> DataFrame -> list cell -> DataFrame ->
                            list cell -> string -> stateful world Result)
         (df df' : DataFrame) (w w1 w2 : world)
         (train test : DataFrame) (train_targets test_targets : list cell)
         (before after : list (estimator * string)) (m : estimator) (name : string)
         (rows : list Result) (e : exn),
    roster = before ++ (m, name) :: after ->
    preprocess_data lib df 183 true
    = (df', Ok (train, train_targets, test, test_targets)) ->
    run_each implement_model before train train_targets test test_targets w
    = (w1, Ok rows) ->
    implement_model m train train_targets test test_targets name w1
    = (w2, Raise e) ->
    evaluate_models lib world implement_model df w
    = {| caller := df'; stdout := []; after := w2; returned := Raise e |}.
Proof.
  intros lib world implement_model df df' w w1 w2 train test train_targets
    test_targets before after m name rows e Hroster Hpre Hbefore Hm.
  unfold evaluate_models. rewrite Hpre, run_models_is_run_each, Hroster.
  rewrite (run_each_raises implement_model _ _ _ _ before after m name rows
             w w1 w2 e Hbefore Hm).
  reflexivity.
Qed.

Lemma model_exception_propagates_witness :
  returned Z (evaluate_models sample_library Z failing_runner half_years 0)
  = Raise (ValueError "no convergence")
  /\ after Z (evaluate_models sample_library Z failing_runner half_years 0) = 3.
Proof.
  destruct (preprocess_data sample_library half_years 183 true)
    as [df' [[[[train tg] test] tg']|e]] eqn:Hpre;
    [|vm_compute in Hpre; discriminate Hpre].
  rewrite (model_exception_propagates sample_library Z failing_runner
             half_years df' 0 2 3 train test tg tg'
             [(ElasticNet 1 (1 # 2), "elasticnet"%string);
              (KNeighborsRegressor, "knn"%string)]
             [(RandomForestRegressor 100 (-1), "rf"%string);
              (ExtraTreesRegressor 100 (-1), "et"%string);
              (AdaBoostRegressor 1000 (5 # 100) "exponential", "adaboost"%string)]
             SVR "svm"
             [{| model := "elasticnet"; train_time := of_int 0;
                 test_time := of_int 1; mape := of_int (len test) |};
              {| model := "knn"; train_time := of_int 1;
                 test_time := of_int 1; mape := of_int (len test) |}]
             (ValueError "no convergence") eq_refl Hpre eq_refl eq_refl).
  split; reflexivity.
Defined.

(** ** The columns of the tables returned *)

Lemma names_map_rows (fi : list Z -> list Z) (fc : list cell -> list cell)
  (df : DataFrame) :
  column_names (map_rows fi fc df) = column_names df.
Proof.
  unfold column_names, map_rows. cbn [columns]. rewrite map_map. reflexivity.
Qed.

Lemma map_fst_combine {A B : Type} (l : list A) (l' : list B) :
  length l = length l' -> map fst (combine l l') = l.
Proof.
  revert l'; induction l as [|a l IH]; intros [|b l'] H; cbn in *;
    try reflexivity; try discriminate.
  f_equal. apply IH. lia.
Qed.

Lemma length_check_array (X : DataFrame) (cols : list (list float)) :
  check_array X = Ok cols -> length cols = length (columns X).
Proof.
  intros H. apply check_array_Ok in H. destruct H as (H & _).
  exact (mapM_length _ _ _ H).
Qed.

(** The array [transform] returns has a column for each column of the
    frame, when the scaler was fit on a frame of as many columns. *)
Lemma transform_columns (scaler : MinMaxScaler) (X : DataFrame)
  (a : list (list float)) :
  length (min_ scaler) = length (scale_ scaler) ->
  transform scaler X = Ok a -> length a = length (columns X).
Proof.
  intros Hmin H. apply transform_Ok in H. destruct H as (cols & Hc & Hlen & ->).
  rewrite length_map2, length_combine, Hmin, Nat.min_id, <- Hlen, Nat.min_id.
  exact (length_check_array X cols Hc).
Qed.

Lemma lookup_None (name : string) (cols : list (string * Series)) :
  lookup name cols = None <-> ~ In name (map fst cols).
Proof.
  induction cols as [|[n s] cols IH]; cbn [lookup map fst In].
  - tauto.
  - destruct (String.eqb_spec n name) as [->|Hn].
    + split; [discriminate | intros H; exfalso; apply H; auto].
    + rewrite IH. tauto.
Qed.

Lemma names_without (dropped : list string) (df : DataFrame) (name : string) :
  In name (column_names (without dropped df)) ->
  In name (column_names df) /\ mem name dropped = false.
Proof.
  unfold column_names, without. cbn [columns]. intros H.
  apply in_map_iff in H. destruct H as ([n s] & <- & H).
  apply filter_In in H. destruct H as [H Hkeep]. cbn [fst] in *.
  split; [apply in_map_iff; exists (n, s); auto|].
  apply negb_true_iff, Hkeep.
Qed.

Lemma mem_In (name : string) (l : list string) :
  mem name l = true <-> In name l.
Proof.
  unfold mem. rewrite existsb_exists. split.
  - intros (n & Hn & E). apply String.eqb_eq in E. subst n. exact Hn.
  - intros H. exists name. split; [exact H | apply String.eqb_refl].
Qed.

(** Line 96 leaves none of the columns to remove. *)
Lemma select_targets_removes (enc feat : DataFrame) (tg : list cell) (name : string) :
  select_targets enc = Ok (feat, tg) ->
  In name columns_remove -> ~ In name (column_names feat).
Proof.
  unfold select_targets. intros H Hname Hin.
  apply bind_Ok in H. destruct H as (elec & _ & H).
  apply bind_Ok in H. destruct H as (mask & _ & H).
  apply bind_Ok in H. destruct H as (elec' & _ & H).
  apply bind_Ok in H. destruct H as (feat' & Hdrop & H).
  apply Ok_inj in H. injection H as -> _.
  unfold drop in Hdrop. destruct (find _ _); [discriminate|].
  apply Ok_inj in Hdrop. subst feat.
  apply names_without in Hin. destruct Hin as [Hin Hmem].
  assert (Hm : mem name (filter (has_column (where_ enc mask)) columns_remove) = true).
  { apply mem_In, filter_In. split; [exact Hname|].
    unfold has_column.
    destruct (lookup name (columns (where_ enc mask))) eqn:E; [reflexivity|].
    apply lookup_None in E. contradiction. }
  congruence.
Qed.

(** X6.  The two tables a call returns have the same columns in the same
    order, those of the feature table at the split, with scaling and
    without.  The relative timestamp is one of them; elec_cons and the
    other six columns of columns_remove never are. *)
Theorem returned_columns :
  forall (lib : library) (df : DataFrame) (test_days : Z) (scale : bool)
         (train test : DataFrame) (train_targets test_targets : list cell),
    snd (preprocess_data lib df test_days scale)
    = Ok (train, train_targets, test, test_targets) ->
    exists st,
      at_split lib df test_days = Ok st
      /\ column_names train = column_names (features st)
      /\ column_names test = column_names (features st)
      /\ In "timestamp"%string (column_names train)
      /\ (forall name, In name columns_remove -> ~ In name (column_names train)).
Proof.
  intros lib df test_days scale train test train_targets test_targets H.
  apply preprocess_data_split in H.
  destruct H as (enc & st & Henc & Hsel & Hf & Hat & _ & _ & Hsc & _).
  assert (Htr : column_names train = column_names (features st)
                /\ column_names test = column_names (features st)).
  { destruct scale.
    - unfold scale_features in Hsc.
      apply bind_Ok in Hsc. destruct Hsc as (scaler & Hfit & Hsc).
      apply bind_Ok in Hsc. destruct Hsc as (a & Ha & Hsc).
      apply bind_Ok in Hsc. destruct Hsc as (b & Hb & Hsc).
      apply Ok_inj in Hsc. injection Hsc as <- <-.
      apply fit_Ok in Hfit. destruct Hfit as (cols & _ & _ & _ & Hs & Hm).
      apply transform_columns in Ha; [|congruence].
      apply transform_columns in Hb; [|congruence].
      unfold column_names, DataFrame_of. cbn [columns].
      unfold iloc_upto in Ha. unfold iloc_from in Hb.
      unfold map_rows in Ha, Hb. cbn [columns] in Ha, Hb.
      rewrite length_map in Ha, Hb.
      split; apply map_fst_combine; rewrite !length_map; congruence.
    - destruct Hsc as [-> ->]. split; apply names_map_rows. }
  destruct Htr as [Htr Hte].
  exists st. split; [exact Hat|]. split; [exact Htr|]. split; [exact Hte|].
  rewrite Htr. split.
  - unfold infer_frequency in Hf.
    apply bind_Ok in Hf. destruct Hf as (ts & Hts & _).
    apply getitem_In in Hts. unfold column_names. apply in_map_iff.
    exists ("timestamp"%string, ts). auto.
  - intros name Hname. exact (select_targets_removes enc _ _ name Hsel Hname).
Qed.

Lemma returned_columns_witness :
  exists train test train_targets test_targets,
    snd (preprocess_data sample_library half_years 183 true)
    = Ok (train, train_targets, test, test_targets)
    /\ column_names train = column_names test
    /\ ~ In "elec_cons"%string (column_names train).
Proof.
  destruct (snd (preprocess_data sample_library half_years 183 true))
    as [[[[train tg] test] tg']|e] eqn:E; [|vm_compute in E; discriminate E].
  destruct (returned_columns sample_library half_years 183 true train test tg tg' E)
    as (st & _ & Htr & Hte & _ & Hrem).
  exists train, test, tg, tg'. split; [reflexivity|]. split; [congruence|].
  apply Hrem. left. reflexivity.
Defined.

(** ** Text columns *)

Lemma no_object_get_dummies (lib : library) (df : DataFrame) :
  no_object (get_dummies lib df).
Proof.
  unfold no_object, get_dummies. cbn [columns]. apply Forall_app. split.
  - apply Forall_forall. intros c Hc. apply filter_In in Hc.
    destruct Hc as [_ Hc]. apply negb_true_iff, Hc.
  - apply Forall_flat_map, Forall_forall. intros c _.
    unfold dummies. rewrite Forall_map. apply Forall_forall. intros l _. reflexivity.
Qed.

Lemma no_object_map_rows (fi : list Z -> list Z) (fc : list cell -> list cell)
  (df : DataFrame) :
  no_object df -> no_object (map_rows fi fc df).
Proof.
  unfold no_object, map_rows. cbn [columns]. intros H.
  rewrite Forall_map. eapply Forall_impl; [|exact H]. intros [n s] Hs. exact Hs.
Qed.

Lemma no_object_drop (df df' : DataFrame) (dropped : list string) :
  no_object df -> drop df dropped = Ok df' -> no_object df'.
Proof.
  unfold drop. intros H Hd. destruct (find _ _); [discriminate|].
  apply Ok_inj in Hd. subst df'. apply Forall_filter, H.
Qed.

Lemma no_object_DataFrame_of (a : list (list float)) (features : list string) :
  no_object (DataFrame_of a features).
Proof.
  unfold no_object, DataFrame_of. cbn [columns].
  apply Forall_forall. intros [n s] H. apply in_combine_r in H.
  apply in_map_iff in H. destruct H as (xs & <- & _). reflexivity.
Qed.

(** X7.  No column of a table that is returned is an object column: line
    85 replaces every text column by indicator columns, and the steps after
    it make none. *)
Theorem no_text_column_is_returned :
  forall (lib : library) (df : DataFrame) (test_days : Z) (scale : bool)
         (train test : DataFrame) (train_targets test_targets : list cell),
    snd (preprocess_data lib df test_days scale)
    = Ok (train, train_targets, test, test_targets) ->
    no_object train /\ no_object test.
Proof.
  intros lib df test_days scale train test train_targets test_targets H.
  apply preprocess_data_split in H.
  destruct H as (enc & st & Henc & Hsel & _ & _ & _ & _ & Hsc & _).
  destruct scale.
  - unfold scale_features in Hsc.
    apply bind_Ok in Hsc. destruct Hsc as (scaler & _ & Hsc).
    apply bind_Ok in Hsc. destruct Hsc as (a & _ & Hsc).
    apply bind_Ok in Hsc. destruct Hsc as (b & _ & Hsc).
    apply Ok_inj in Hsc. injection Hsc as <- <-.
    split; apply no_object_DataFrame_of.
  - destruct Hsc as [-> ->].
    assert (Henc' : no_object enc).
    { unfold encoded in Henc.
      destruct (derive_features lib df) as [caller [[]|e]]; [|discriminate].
      cbn [bind] in Henc. unfold encode in Henc.
      apply bind_Ok in Henc. destruct Henc as (df1 & _ & Henc).
      apply bind_Ok in Henc. destruct Henc as (ts & _ & Henc).
      apply bind_Ok in Henc. destruct Henc as (seconds & _ & Henc).
      apply bind_Ok in Henc. destruct Henc as (wde & _ & Henc).
      apply bind_Ok in Henc. destruct Henc as (labels & _ & Henc).
      apply Ok_inj in Henc. subst enc. apply no_object_get_dummies. }
    assert (Hfeat : no_object (features st)).
    { unfold select_targets in Hsel.
      apply bind_Ok in Hsel. destruct Hsel as (elec & _ & Hsel).
      apply bind_Ok in Hsel. destruct Hsel as (mask & _ & Hsel).
      apply bind_Ok in Hsel. destruct Hsel as (elec' & _ & Hsel).
      apply bind_Ok in Hsel. destruct Hsel as (feat' & Hdrop & Hsel).
      apply Ok_inj in Hsel. injection Hsel as -> _.
      eapply no_object_drop; [|exact Hdrop].
      apply no_object_map_rows, Henc'. }
    split; apply no_object_map_rows, Hfeat.
Qed.

Lemma no_text_column_is_returned_witness :
  exists train test train_targets test_targets,
    snd (preprocess_data sample_library half_years 183 false)
    = Ok (train, train_targets, test, test_targets)
    /\ no_object train /\ no_object test.
Proof.
  destruct (snd (preprocess_data sample_library half_years 183 false))
    as [[[[train tg] test] tg']|e] eqn:E; [|vm_compute in E; discriminate E].
  exists train, test, tg, tg'. split; [reflexivity|].
  exact (no_text_column_is_returned sample_library half_years 183 false
           train test tg tg' E).
Defined.

(** ** The relative time axis *)

Lemma fold_left_min_le (zs : list Z) (z : Z) :
  fold_left Z.min zs z <= z /\ forall x, In x zs -> fold_left Z.min zs z <= x.
Proof.
  revert z; induction zs as [|y zs IH]; intros z; cbn [fold_left].
  - split; [lia | contradiction].
  - destruct (IH (Z.min z y)) as [H1 H2]. split; [lia|].
    intros x [<-|Hx]; [lia | exact (H2 x Hx)].
Qed.

Lemma fold_left_min_In (zs : list Z) (z : Z) :
  fold_left Z.min zs z = z \/ In (fold_left Z.min zs z) zs.
Proof.
  revert z; induction zs as [|y zs IH]; intros z; cbn [fold_left]; [auto|].
  destruct (IH (Z.min z y)) as [H|H].
  - rewrite H. destruct (Z.min_spec z y) as [[_ ->]|[_ ->]]; cbn; auto.
  - right. right. exact H.
Qed.

Lemma minimum_spec (zs : list Z) (t0 : Z) :
  minimum zs = Some t0 -> In t0 zs /\ forall x, In x zs -> t0 <= x.
Proof.
  destruct zs as [|z zs]; [discriminate|]. cbn [minimum]. intros H.
  apply (f_equal (fun o => match o with Some x => x | None => 0 end)) in H.
  subst t0. destruct (fold_left_min_le zs z) as [H1 H2]. split.
  - destruct (fold_left_min_In zs z) as [->|H]; cbn; auto.
  - intros x [<-|Hx]; [exact H1 | exact (H2 x Hx)].
Qed.

Lemma In_times (s : Series) (ns : Z) : In ns (times s) <-> In (Time ns) (cells s).
Proof.
  unfold times. rewrite in_flat_map. split.
  - intros (c & Hc & H). destruct c; cbn in H; try contradiction.
    destruct H as [<-|[]]. exact Hc.
  - intros H. exists (Time ns). split; [exact H | left; reflexivity].
Qed.

(** X8.  Line 77 counts seconds from the earliest timestamp of the frame,
    in whatever order the rows are: every relative timestamp is a number
    that is not negative or is missing (where the timestamp was), the
    column has a cell for each row, and, when there is a timestamp at all,
    one row is at 0. *)
Theorem relative_seconds_start_at_zero :
  forall (s v : Series),
    seconds_since_min s = Ok v ->
    length (cells v) = length (cells s)
    /\ (forall c, In c (cells v) -> c = Null \/ exists q, c = Num q /\ (0 <= q)%Q)
    /\ (times s <> [] -> In (Num 0) (cells v)).
Proof.
  intros s v H. split; [exact (length_seconds_since_min s v H)|].
  unfold seconds_since_min in H. destruct (kind s); try discriminate.
  apply Ok_inj in H. subst v. cbn [cells].
  destruct (minimum (times s)) as [t0|] eqn:Hmin.
  - destruct (minimum_spec _ _ Hmin) as [Hin Hle]. split.
    + intros c Hc. apply in_map_iff in Hc. destruct Hc as (c0 & <- & Hc0).
      destruct c0 as [| |ns|]; auto. right. eexists. split; [reflexivity|].
      rewrite Qred_correct.
      assert (Hns : t0 <= ns) by (apply Hle, In_times, Hc0).
      unfold Qle, Qdiv, Qmult, Qinv, inject_Z. cbn. lia.
    + intros _. apply in_map_iff. exists (Time t0).
      split; [|apply In_times, Hin]. rewrite Z.sub_diag. reflexivity.
  - split.
    + intros c Hc. apply in_map_iff in Hc. destruct Hc as (c0 & <- & _).
      left. destruct c0; reflexivity.
    + intros Hne. destruct (times s); [contradiction | discriminate].
Qed.

Lemma relative_seconds_start_at_zero_witness :
  seconds_since_min {| kind := Datetime; cells := [Time 7; Null; Time 3] |}
  = Ok {| kind := Numeric; cells := [Num (1 # 250000000); Null; Num 0] |}
  /\ In (Num 0) [Num (1 # 250000000); Null; Num 0].
Proof.
  split; [reflexivity|].
  destruct (relative_seconds_start_at_zero
              {| kind := Datetime; cells := [Time 7; Null; Time 3] |}
              {| kind := Numeric; cells := [Num (1 # 250000000); Null; Num 0] |}
              eq_refl) as (_ & _ & H).
  apply H. discriminate.
Defined.

(** ** Calls that stop half-way *)

Section Outcomes.

Context {A : Type} (df : DataFrame) (o : DataFrame * result A).

Lemma ends_get (name : string) (s : Series) (k : Series -> action A) :
  getitem df name = Ok s -> k s df = o -> and_then (get name) k df = o.
Proof. intros Hs Hk. unfold and_then, get. rewrite Hs. exact Hk. Qed.

Lemma ends_eval {B : Type} (r : result B) (v : B) (k : B -> action A) :
  r = Ok v -> k v df = o -> and_then (eval r) k df = o.
Proof. intros -> Hk. exact Hk. Qed.

Lemma ends_set (name : string) (v : Series) (k : action A) :
  k (setitem df name v) = o -> and_then (set name v) (fun _ => k) df = o.
Proof. intros Hk. exact Hk. Qed.

Lemma ends_seq {B : Type} (c : action B) (k : action A) (df1 : DataFrame) (b : B) :
  c df = (df1, Ok b) -> k df1 = o -> and_then c (fun _ => k) df = o.
Proof. intros Hc Hk. unfold and_then. rewrite Hc. exact Hk. Qed.

End Outcomes.

Lemma ends_get_missing {A : Type} (df : DataFrame) (name : string)
  (k : Series -> action A) :
  has_column df name = false ->
  and_then (get name) k df = (df, Raise (KeyError (Name name))).
Proof.
  unfold has_column, and_then, get, getitem.
  destruct (lookup name (columns df)); [discriminate | reflexivity].
Qed.

Lemma and_then_raises {S A B : Type} (c : stateful S A) (k : A -> stateful S B)
  (st st' : S) (e : exn) :
  c st = (st', Raise e) -> and_then c k st = (st', Raise e).
Proof. intros H. unfold and_then. rewrite H. reflexivity. Qed.

Lemma cyclical_block (lib : library) (df : DataFrame) (feature : string)
  (col : Series) (xs : list float) :
  getitem df feature = Ok col ->
  to_floats col = Ok xs ->
  (feature ++ "_sin")%string <> feature ->
  (s <~ get feature ;;
   v <~ eval (cyclical (np_sin lib) s) ;;
   set (feature ++ "_sin") v ;;;
   s <~ get feature ;;
   v <~ eval (cyclical (np_cos lib) s) ;;
   set (feature ++ "_cos") v) df
  = (setitem (setitem df (feature ++ "_sin") (cycle (np_sin lib) xs))
             (feature ++ "_cos") (cycle (np_cos lib) xs), Ok tt).
Proof.
  intros Hcol Hxs Hne.
  destruct (runs_cyclical lib (fun _ d => d = setitem (setitem df (feature ++ "_sin")
                                                         (cycle (np_sin lib) xs))
                                                (feature ++ "_cos") (cycle (np_cos lib) xs))
              df feature col xs Hcol Hxs Hne eq_refl) as (d & [] & H & ->).
  exact H.
Qed.

Lemma has_column_setitem (df : DataFrame) (n name : string) (s : Series) :
  has_column (setitem df n s) name = (String.eqb n name || has_column df name)%bool.
Proof.
  unfold has_column, setitem. cbn [columns]. rewrite lookup_assign.
  destruct (String.eqb n name); reflexivity.
Qed.

(** X9.  A frame that has sun_rise_set and a convertible timestamp but no
    num_time column makes the call raise KeyError('num_time') in the fourth
    turn of the loop of lines 69-71, when the assignments before it have
    been made: the caller's frame is left with the filled sun_rise_set, the
    converted timestamp, yday, month, wday and six of the eight sine and
    cosine columns. *)
Theorem missing_num_time_leaves_frame_half_done :
  forall (lib : library) (df : DataFrame) (test_days : Z) (scale : bool)
         (s ts t : Series),
    getitem df "sun_rise_set" = Ok s ->
    getitem df "timestamp" = Ok ts ->
    DatetimeIndex lib ts = Ok t ->
    has_column df "num_time" = false ->
    preprocess_data lib df test_days scale
    = (before_num_time lib df s t, Raise (KeyError (Name "num_time")))
    /\ has_column (before_num_time lib df s t) "wday_cos" = true
    /\ has_column (before_num_time lib df s t) "num_time_sin"
       = has_column df "num_time_sin".
Proof.
  intros lib df test_days scale s ts t Hs Hts Ht Hn.
  pose proof (DatetimeIndex_kind lib ts t Ht) as Hk.
  split; [|split].
  - assert (Hd : derive_features lib df
                 = (before_num_time lib df s t, Raise (KeyError (Name "num_time")))).
    { unfold derive_features. cbn [for_each cyc_features].
      eapply ends_get; [exact Hs|]. apply ends_set.
      eapply ends_get; [column|].
      eapply ends_eval; [exact Ht|]. apply ends_set.
      eapply ends_get; [column|].
      eapply ends_eval; [apply dt_Datetime, Hk|]. apply ends_set.
      eapply ends_get; [column|].
      eapply ends_eval; [apply dt_Datetime, Hk|]. apply ends_set.
      eapply ends_get; [column|].
      eapply ends_eval; [apply dt_Datetime, Hk|]. apply ends_set.
      eapply ends_seq;
        [eapply cyclical_block; [column | apply to_floats_calendar | discriminate]|].
      eapply ends_seq;
        [eapply cyclical_block; [column | apply to_floats_calendar | discriminate]|].
      eapply ends_seq;
        [eapply cyclical_block; [column | apply to_floats_calendar | discriminate]|].
      apply and_then_raises. apply ends_get_missing.
      unfold before_num_time. rewrite !has_column_setitem. names. exact Hn. }
    unfold preprocess_data. rewrite Hd. reflexivity.
  - unfold before_num_time. rewrite !has_column_setitem. names. reflexivity.
  - unfold before_num_time. rewrite !has_column_setitem. names. reflexivity.
Qed.

Lemma missing_num_time_leaves_frame_half_done_witness :
  snd (preprocess_data sample_library no_num_time 183 true)
  = Raise (KeyError (Name "num_time"))
  /\ has_column (fst (preprocess_data sample_library no_num_time 183 true)) "wday_cos"
     = true
  /\ has_column no_num_time "wday_cos" = false.
Proof.
  destruct (getitem no_num_time "sun_rise_set") as [s|e] eqn:Hs;
    [|vm_compute in Hs; discriminate Hs].
  destruct (getitem no_num_time "timestamp") as [ts|e] eqn:Hts;
    [|vm_compute in Hts; discriminate Hts].
  destruct (DatetimeIndex sample_library ts) as [t|e] eqn:Ht;
    [|vm_compute in Hts; apply Ok_inj in Hts; subst ts;
      vm_compute in Ht; discriminate Ht].
  destruct (missing_num_time_leaves_frame_half_done sample_library no_num_time
              183 true s ts t Hs Hts Ht eq_refl) as (-> & Hcos & _).
  cbn [fst snd]. split; [reflexivity|]. split; [exact Hcos | reflexivity].
Defined.

(** ** What the scaler does to a value *)

Lemma map2_map_r {A B C D : Type} (f : A -> B -> C) (g : D -> B)
  (l : list A) (l' : list D) :
  map2 f l (map g l') = map2 (fun a d => f a (g d)) l l'.
Proof.
  unfold map2. revert l'; induction l as [|a l IH]; intros [|d l']; cbn;
    try reflexivity. f_equal. apply IH.
Qed.

Lemma map2_map_l {A B C D : Type} (f : A -> B -> C) (g : D -> A)
  (l : list D) (l' : list B) :
  map2 f (map g l) l' = map2 (fun d b => f (g d) b) l l'.
Proof.
  unfold map2. revert l'; induction l as [|a l IH]; intros [|d l']; cbn;
    try reflexivity. f_equal. apply IH.
Qed.

Lemma map2_diag {A C : Type} (f : A -> A -> C) (l : list A) :
  map2 f l l = map (fun a => f a a) l.
Proof. unfold map2. induction l as [|a l IH]; cbn; [reflexivity|]. f_equal. exact IH. Qed.

Lemma combine_map {A B C : Type} (f : A -> B) (g : A -> C) (l : list A) :
  combine (map f l) (map g l) = map (fun a => (f a, g a)) l.
Proof. induction l as [|a l IH]; cbn; [reflexivity|]. f_equal. exact IH. Qed.

(** The parameters of a fitted scaler, column by column. *)
Lemma fit_parameters (X : DataFrame) (scaler : MinMaxScaler) :
  fit X = Ok scaler ->
  exists cols,
    check_array X = Ok cols
    /\ combine (scale_ scaler) (min_ scaler)
       = map (fun col =>
                let scale := fdiv (of_int 1)
                               (handle_zeros_in_scale (fsub (nanmax col) (nanmin col))) in
                (scale, fsub (of_int 0) (fmul (nanmin col) scale))) cols.
Proof.
  unfold fit. intros H. apply bind_Ok in H. destruct H as (cols & Hc & H).
  apply Ok_inj in H. subst scaler. exists cols. split; [exact Hc|].
  cbn [scale_ min_].
  rewrite map2_map_l, map2_map_r, map2_diag, map_map.
  rewrite map2_map_l, map2_map_r, map2_diag.
  rewrite combine_map. reflexivity.
Qed.

(** [transform] after [fit]: each value is rescaled by the column of the
    frame the scaler was fit on. *)
Lemma transform_rescales (X Y : DataFrame) (scaler : MinMaxScaler)
  (b : list (list float)) :
  fit X = Ok scaler -> transform scaler Y = Ok b ->
  exists cols cols',
    check_array X = Ok cols /\ check_array Y = Ok cols'
    /\ length cols' = length cols
    /\ b = map2 (fun col' col => map (rescale col) col') cols' cols.
Proof.
  intros Hfit Hb.
  destruct (fit_parameters X scaler Hfit) as (cols & Hc & Hpar).
  destruct (fit_Ok X scaler Hfit) as (cols0 & Hc0 & _ & _ & Hs & _).
  rewrite Hc in Hc0. apply Ok_inj in Hc0. subst cols0.
  apply transform_Ok in Hb. destruct Hb as (cols' & Hc' & Hlen & ->).
  exists cols, cols'. split; [exact Hc|]. split; [exact Hc'|].
  split; [congruence|]. rewrite Hpar, map2_map_r. reflexivity.
Qed.

Lemma rescale_NaN (col : list float) : rescale col None = None.
Proof. reflexivity. Qed.




(** What lines 121-136 return, value by value. *)
Lemma scale_features_rescales (df train test train' test' : DataFrame) :
  scale_features df train test = Ok (train', test') ->
  exists cols cols',
    check_array train = Ok cols
    /\ check_array test = Ok cols'
    /\ length cols' = length cols
    /\ train' = DataFrame_of (map (fun col => map (rescale col) col) cols)
                  (column_names df)
    /\ test' = DataFrame_of (map2 (fun col' col => map (rescale col) col') cols' cols)
                 (column_names df).
Proof.
  unfold scale_features. intros H.
  apply bind_Ok in H. destruct H as (scaler & Hfit & H).
  apply bind_Ok in H. destruct H as (a & Ha & H).
  apply bind_Ok in H. destruct H as (b & Hb & H).
  apply Ok_inj in H. injection H as <- <-.
  destruct (transform_rescales train train scaler a Hfit Ha)
    as (cols & cols0 & Hc & Hc0 & _ & ->).
  rewrite Hc in Hc0. apply Ok_inj in Hc0. subst cols0.
  destruct (transform_rescales train test scaler b Hfit Hb)
    as (cols1 & cols' & Hc1 & Hc' & Hlen & ->).
  rewrite Hc in Hc1. apply Ok_inj in Hc1. subst cols1.
  exists cols, cols'. rewrite map2_diag. auto.
Qed.



(** ** Missing values and the scaler *)

Lemma any_null_iff (df : DataFrame) :
  any_null df = true <-> exists c, In c (columns df) /\ In Null (cells (snd c)).
Proof.
  unfold any_null. rewrite existsb_exists. split.
  - intros (c & Hc & H). exists c. split; [exact Hc|].
    apply existsb_exists in H. destruct H as (x & Hx & Hnull).
    destruct x; try discriminate. exact Hx.
  - intros (c & Hc & H). exists c. split; [exact Hc|].
    apply existsb_exists. exists Null. auto.
Qed.

Lemma mapM_In {A B : Type} (f : A -> result B) (l : list A) (l' : list B) (a : A) :
  mapM f l = Ok l' -> In a l -> exists b, In b l' /\ f a = Ok b.
Proof.
  intros H Ha. apply In_nth_error in Ha. destruct Ha as (i & Hi).
  destruct (mapM_nth_error f l l' H i a Hi) as (b & Hb & Hf).
  exists b. split; [exact (nth_error_In _ _ Hb) | exact Hf].
Qed.

(** A hole in a frame is a NaN in the array the scaler works on. *)
Lemma check_array_null (X : DataFrame) (cols : list (list float)) :
  check_array X = Ok cols -> any_null X = true ->
  exists col, In col cols /\ In None col.
Proof.
  intros Hc Hnull. apply check_array_Ok in Hc. destruct Hc as (Hc & _).
  apply any_null_iff in Hnull. destruct Hnull as (c & Hin & Hcell).
  destruct (mapM_In _ _ _ c Hc Hin) as (col & Hcol & Hf).
  exists col. split; [exact Hcol|].
  unfold to_floats in Hf.
  destruct (mapM_In _ _ _ Null Hf Hcell) as (x & Hx & Hnone).
  apply Ok_inj in Hnone. subst x. exact Hx.
Qed.

Lemma In_map2 {A B C : Type} (f : A -> B -> C) (l : list A) (l' : list B) (a : A) :
  length l = length l' -> In a l -> exists b, In (f a b) (map2 f l l').
Proof.
  unfold map2. revert l'; induction l as [|x l IH]; intros [|y l'] Hlen Ha;
    cbn in *; try contradiction; try discriminate.
  destruct Ha as [->|Ha].
  - exists y. left. reflexivity.
  - destruct (IH l' ltac:(lia) Ha) as (b & Hb). exists b. right. exact Hb.
Qed.

Lemma map_snd_combine {A B : Type} (l : list A) (l' : list B) :
  length l = length l' -> map snd (combine l l') = l'.
Proof.
  revert l'; induction l as [|a l IH]; intros [|b l'] H; cbn in *;
    try reflexivity; try discriminate.
  f_equal. apply IH. lia.
Qed.

Lemma any_null_DataFrame_of (a : list (list float)) (features : list string)
  (ys : list float) :
  length features = length a -> In ys a -> In None ys ->
  any_null (DataFrame_of a features) = true.
Proof.
  intros Hlen Hys Hnone. apply any_null_iff. unfold DataFrame_of. cbn [columns].
  assert (Hin : In (numeric ys) (map snd (combine features (map numeric a)))).
  { rewrite map_snd_combine by (rewrite length_map; exact Hlen).
    apply in_map, Hys. }
  apply in_map_iff in Hin. destruct Hin as (c & Hc & Hin).
  exists c. split; [exact Hin|]. rewrite Hc. cbn [numeric cells].
  apply in_map_iff. exists None. auto.
Qed.

(** Scaling keeps a hole a hole, in both partitions. *)
Lemma scale_features_keeps_null (feat train' test' : DataFrame) (k : Z) :
  scale_features feat (iloc_upto feat k) (iloc_from feat k) = Ok (train', test') ->
  (any_null (iloc_upto feat k) = true -> any_null train' = true)
  /\ (any_null (iloc_from feat k) = true -> any_null test' = true).
Proof.
  intros H. destruct (scale_features_rescales _ _ _ _ _ H)
    as (cols & cols' & Hc & Hc' & Hlen & -> & ->).
  pose proof (length_check_array _ _ Hc) as Hn.
  pose proof (length_check_array _ _ Hc') as Hn'.
  unfold iloc_upto, map_rows in Hn. unfold iloc_from, map_rows in Hn'.
  cbn [columns] in Hn, Hn'. rewrite length_map in Hn, Hn'.
  split; intros Hnull.
  - destruct (check_array_null _ _ Hc Hnull) as (col & Hcol & Hnone).
    apply (any_null_DataFrame_of _ _ (map (rescale col) col)).
    + unfold column_names. rewrite !length_map. congruence.
    + apply in_map_iff. exists col. auto.
    + apply in_map_iff. exists None. auto.
  - destruct (check_array_null _ _ Hc' Hnull) as (col & Hcol & Hnone).
    destruct (In_map2 (fun col' col0 => map (rescale col0) col') cols' cols col
                Hlen Hcol) as (col0 & Hin).
    apply (any_null_DataFrame_of _ _ (map (rescale col0) col)).
    + unfold column_names. rewrite length_map2, length_map. lia.
    + exact Hin.
    + apply in_map_iff. exists None. auto.
Qed.

(** A hole in a partition at the split stops the call. *)
Lemma hole_at_split_fails (lib : library) (df : DataFrame) (test_days : Z)
  (st : split_point) (scale : bool) :
  at_split lib df test_days = Ok st ->
  any_null (iloc_upto (features st) (test_start st)) = true
  \/ any_null (iloc_from (features st) (test_start st)) = true ->
  fails (snd (preprocess_data lib df test_days scale)).
Proof.
  intros Hat Hnull.
  destruct (snd (preprocess_data lib df test_days scale))
    as [[[[train tg] test] tg']|e] eqn:E; [|exists e; reflexivity].
  exfalso. apply preprocess_data_split in E.
  destruct E as (enc & st' & _ & _ & _ & Hat' & _ & _ & Hsc & Htr & Hte).
  rewrite Hat in Hat'. apply Ok_inj in Hat'. subst st'.
  destruct scale.
  - destruct (scale_features_keeps_null _ _ _ _ Hsc) as [H1 H2].
    destruct Hnull as [Hn|Hn]; [apply H1 in Hn | apply H2 in Hn]; congruence.
  - destruct Hsc as [-> ->]. destruct Hnull; congruence.
Qed.

(** X11.  A missing value cannot be scaled away.  When the training or the
    testing partition at the split holds a missing value, no call returns,
    with scale true as with scale false: the scaler leaves the value
    missing, and the check of lines 139-140 stops the call. *)
Theorem missing_values_stop_every_call :
  forall (lib : library) (df : DataFrame) (test_days : Z) (st : split_point),
    at_split lib df test_days = Ok st ->
    any_null (iloc_upto (features st) (test_start st)) = true
    \/ any_null (iloc_from (features st) (test_start st)) = true ->
    forall scale, fails (snd (preprocess_data lib df test_days scale)).
Proof.
  intros lib df test_days st Hat Hnull scale.
  exact (hole_at_split_fails lib df test_days st scale Hat Hnull).
Qed.

Lemma missing_values_stop_every_call_witness :
  fails (snd (preprocess_data sample_library holed_frame 1 true))
  /\ fails (snd (preprocess_data sample_library holed_frame 1 false)).
Proof.
  destruct (at_split sample_library holed_frame 1) as [st|e] eqn:E;
    [|vm_compute in E; discriminate E].
  assert (H : any_null (iloc_upto (features st) (test_start st)) = true).
  { vm_compute in E. apply Ok_inj in E. subst st. reflexivity. }
  split; apply (missing_values_stop_every_call sample_library holed_frame 1 st E);
    left; exact H.
Defined.

(** ** A second call on the same frame *)

Lemma assign_same (n : string) (v : Series) (cols : list (string * Series)) :
  lookup n cols = Some v -> assign n v cols = cols.
Proof.
  induction cols as [|[m c] cols IH]; cbn [lookup assign]; [discriminate|].
  destruct (String.eqb m n).
  - intros H. injection H as ->. reflexivity.
  - intros H. rewrite (IH H). reflexivity.
Qed.

Lemma setitem_same (df : DataFrame) (n : string) (v : Series) :
  getitem df n = Ok v -> setitem df n v = df.
Proof.
  unfold getitem, setitem. destruct (lookup n (columns df)) as [s|] eqn:E;
    [|discriminate].
  intros H. apply Ok_inj in H. subst s. rewrite (assign_same n v _ E).
  destruct df; reflexivity.
Qed.

Lemma fillna_fillna (s : Series) (v : string) :
  fillna (fillna s v) v = fillna s v.
Proof.
  unfold fillna at 1. rewrite fillna_no_null.
  unfold fillna. cbn [kind cells]. f_equal.
  rewrite map_map. apply map_ext.
  intros c. destruct c; reflexivity.
Qed.

Lemma mapM_to_datetime_fixed (lib : library) (cs cs' : list cell) :
  mapM (to_datetime lib) cs = Ok cs' -> mapM (to_datetime lib) cs' = Ok cs'.
Proof.
  revert cs'; induction cs as [|c cs IH]; cbn [mapM]; intros cs' H.
  - apply Ok_inj in H. subst cs'. reflexivity.
  - apply bind_Ok in H. destruct H as (d & Hd & H).
    apply bind_Ok in H. destruct H as (ds & Hds & H).
    apply Ok_inj in H. subst cs'. cbn [mapM]. rewrite (IH ds Hds).
    assert (Hfix : to_datetime lib d = Ok d).
    { destruct c as [q|s|ns|]; cbn in Hd.
      - apply Ok_inj in Hd. subst d. reflexivity.
      - destruct (parse_datetime lib s); [|discriminate].
        apply Ok_inj in Hd. subst d. reflexivity.
      - apply Ok_inj in Hd. subst d. reflexivity.
      - apply Ok_inj in Hd. subst d. reflexivity. }
    rewrite Hfix. reflexivity.
Qed.

(** Converting a converted column changes nothing. *)
Lemma DatetimeIndex_fixed (lib : library) (ts t : Series) :
  DatetimeIndex lib ts = Ok t -> DatetimeIndex lib t = Ok t.
Proof.
  unfold DatetimeIndex. intros H. apply bind_Ok in H.
  destruct H as (cs & Hcs & H). apply Ok_inj in H. subst t. cbn [cells].
  rewrite (mapM_to_datetime_fixed lib _ _ Hcs). reflexivity.
Qed.

Lemma left_behind_again (lib : library) (df : DataFrame) (s t n : Series)
  (xs : list float) :
  getitem df "num_time" = Ok n ->
  left_behind lib (left_behind lib df s t xs) (fillna s "neither") t xs
  = left_behind lib df s t xs.
Proof.
  intros Hn. set (L := left_behind lib df s t xs).
  unfold left_behind at 1. rewrite fillna_fillna.
  repeat (rewrite (setitem_same L);
          [| unfold L, left_behind; rewrite ?getitem_setitem; names; reflexivity]).
  reflexivity.
Qed.

(** X12.  The assignments of lines 55-71 give the same columns when they
    are made again: a second call on the frame that a first call has
    changed leaves that frame as it is and returns, or raises, what a call
    with the same test_days and scale on the original frame does. *)
Theorem second_call_same_result :
  forall (lib : library) (df : DataFrame) (test_days test_days' : Z)
         (scale scale' : bool) (s ts t n : Series) (xs : list float),
    getitem df "sun_rise_set" = Ok s ->
    getitem df "timestamp" = Ok ts ->
    DatetimeIndex lib ts = Ok t ->
    getitem df "num_time" = Ok n ->
    to_floats n = Ok xs ->
    preprocess_data lib (fst (preprocess_data lib df test_days scale))
      test_days' scale'
    = preprocess_data lib df test_days' scale'.
Proof.
  intros lib df test_days test_days' scale scale' s ts t n xs Hs Hts Ht Hn Hxs.
  pose proof (derive_features_runs lib df s ts t n xs Hs Hts Ht Hn Hxs) as Hd.
  rewrite fst_preprocess_data, Hd. cbn [fst].
  set (L := left_behind lib df s t xs) in *.
  assert (Hd' : derive_features lib L = (L, Ok tt)).
  { rewrite (derive_features_runs lib L (fillna s "neither") t t n xs).
    - unfold L. rewrite (left_behind_again lib df s t n xs Hn). reflexivity.
    - unfold L, left_behind. rewrite ?getitem_setitem. names. reflexivity.
    - unfold L, left_behind. rewrite ?getitem_setitem. names. reflexivity.
    - exact (DatetimeIndex_fixed lib ts t Ht).
    - unfold L, left_behind. rewrite ?getitem_setitem. names. exact Hn.
    - exact Hxs. }
  unfold preprocess_data. rewrite Hd, Hd'. reflexivity.
Qed.

Lemma second_call_same_result_witness :
  preprocess_data sample_library
    (fst (preprocess_data sample_library half_years 183 true)) 183 true
  = preprocess_data sample_library half_years 183 true.
Proof.
  destruct (getitem half_years "sun_rise_set") as [s|e] eqn:Hs;
    [|vm_compute in Hs; discriminate Hs].
  destruct (getitem half_years "timestamp") as [ts|e] eqn:Hts;
    [|vm_compute in Hts; discriminate Hts].
  destruct (DatetimeIndex sample_library ts) as [t|e] eqn:Ht;
    [|vm_compute in Hts; apply Ok_inj in Hts; subst ts;
      vm_compute in Ht; discriminate Ht].
  destruct (getitem half_years "num_time") as [n|e] eqn:Hn;
    [|vm_compute in Hn; discriminate Hn].
  destruct (to_floats n) as [xs|e] eqn:Hxs;
    [|vm_compute in Hn; apply Ok_inj in Hn; subst n;
      vm_compute in Hxs; discriminate Hxs].
  exact (second_call_same_result sample_library half_years 183 183 true true
           s ts t n xs Hs Hts Ht Hn Hxs).
Defined.

(** ** A cyclical base whose maximum is zero *)

Lemma cycle_zero_max (f : Q -> Q) (xs : list float) :
  zero_max xs -> all_null (cycle f xs).
Proof.
  unfold all_null, cycle. cbn [numeric cells]. intros H.
  rewrite map_map. apply Forall_map, Forall_forall. intros x _.
  destruct H as [->|(m & -> & Hm)].
  - destruct x; reflexivity.
  - unfold fmul, lift2, fdiv. destruct x as [x|]; [|reflexivity].
    rewrite (proj2 (Qeq_bool_iff m 0) Hm). reflexivity.
Qed.

Lemma Forall_select {A : Type} (P : A -> Prop) (mask : list bool) (xs : list A) :
  Forall P xs -> Forall P (select mask xs).
Proof.
  revert xs; induction mask as [|b mask IH]; intros xs H; [constructor|].
  destruct H as [|x xs Hx Hxs]; [constructor|]. cbn.
  destruct b; [constructor|]; auto.
Qed.

(** Lines 73-85 keep a numeric column that they neither drop nor assign. *)
Lemma encode_keeps (lib : library) (df enc : DataFrame) (name : string)
  (col : Series) :
  encode lib df = Ok enc ->
  getitem df name = Ok col ->
  is_object col = false ->
  mem name ["yday"; "month"; "wday"; "num_time"; "day_of_week"]%string = false ->
  String.eqb "timestamp" name = false ->
  String.eqb "week_day_end" name = false ->
  getitem enc name = Ok col.
Proof.
  unfold encode. intros H Hcol Hobj Hdropped Hts Hwde.
  apply bind_Ok in H. destruct H as (df1 & Hdrop & H).
  apply bind_Ok in H. destruct H as (ts & _ & H).
  apply bind_Ok in H. destruct H as (seconds & _ & H).
  apply bind_Ok in H. destruct H as (wde & _ & H).
  apply bind_Ok in H. destruct H as (labels & _ & H).
  apply Ok_inj in H. subst enc.
  apply getitem_get_dummies; [|exact Hobj].
  rewrite !getitem_setitem, Hts, Hwde.
  rewrite (getitem_drop _ _ _ name Hdrop Hdropped). exact Hcol.
Qed.

(** Lines 87-96 keep, row for row, a column that is not to be removed. *)
Lemma select_targets_keeps (enc feat : DataFrame) (tg : list cell)
  (name : string) (col : Series) :
  select_targets enc = Ok (feat, tg) ->
  getitem enc name = Ok col ->
  mem name columns_remove = false ->
  exists mask, getitem feat name = Ok (on_rows (select mask) col).
Proof.
  unfold select_targets. intros H Hcol Hname.
  apply bind_Ok in H. destruct H as (elec & _ & H).
  apply bind_Ok in H. destruct H as (mask & _ & H).
  apply bind_Ok in H. destruct H as (elec' & _ & H).
  apply bind_Ok in H. destruct H as (feat' & Hdrop & H).
  apply Ok_inj in H. injection H as -> _.
  exists mask. rewrite (getitem_drop _ _ _ name Hdrop).
  - unfold where_. rewrite getitem_map_rows, Hcol. reflexivity.
  - destruct (mem name (filter _ columns_remove)) eqn:E; [|reflexivity].
    apply mem_In, filter_In in E. destruct E as [E _].
    apply mem_In in E. congruence.
Qed.

Lemma In_upto {A : Type} (k : Z) (xs : list A) (x : A) :
  In x (upto k xs) -> In x xs.
Proof. intros H. rewrite <- (upto_from k xs). apply in_or_app. auto. Qed.

Lemma In_from {A : Type} (k : Z) (xs : list A) (x : A) :
  In x (from k xs) -> In x xs.
Proof. intros H. rewrite <- (upto_from k xs). apply in_or_app. auto. Qed.

(** A column of nothing but holes puts a hole in one of the partitions of
    a table that has rows. *)
Lemma all_null_partition (feat : DataFrame) (name : string) (col : Series) (k : Z) :
  well_formed feat -> index feat <> [] ->
  getitem feat name = Ok col -> all_null col ->
  any_null (iloc_upto feat k) = true \/ any_null (iloc_from feat k) = true.
Proof.
  intros Hwf Hne Hcol Hall.
  pose proof (well_formed_getitem feat name col Hwf Hcol) as Hlen. unfold fits in Hlen.
  assert (Hcells : cells col <> []).
  { intros E. rewrite E in Hlen. destruct (index feat); [contradiction | discriminate]. }
  assert (Hpart : upto k (cells col) <> [] \/ from k (cells col) <> []).
  { destruct (upto k (cells col)) eqn:E; [|left; discriminate].
    right. intros E'. apply Hcells. rewrite <- (upto_from k (cells col)), E, E'.
    reflexivity. }
  assert (Hnull : forall cs, incl cs (cells col) -> cs <> [] -> In Null cs).
  { intros [|c cs] Hincl Hcs; [contradiction|].
    unfold all_null in Hall. rewrite Forall_forall in Hall.
    rewrite <- (Hall c (Hincl c (or_introl eq_refl))). left. reflexivity. }
  destruct Hpart as [Hp|Hp]; [left | right]; apply any_null_iff.
  - exists (name, on_rows (upto k) col). split.
    + apply getitem_In. unfold iloc_upto. rewrite getitem_map_rows, Hcol. reflexivity.
    + cbn [snd on_rows cells]. apply Hnull; [|exact Hp].
      intros c Hc. exact (In_upto _ _ _ Hc).
  - exists (name, on_rows (from k) col). split.
    + apply getitem_In. unfold iloc_from. rewrite getitem_map_rows, Hcol. reflexivity.
    + cbn [snd on_rows cells]. apply Hnull; [|exact Hp].
      intros c Hc. exact (In_from _ _ _ Hc).
Qed.

(** X13.  Lines 70-71 divide each cyclical base by its maximum.  On a
    rectangular frame whose wday column comes out with maximum 0 (every
    reading on a Monday) or whose num_time has maximum 0, or no value at
    all, no call returns, whatever test_days and scale are: the sine
    column of that base is NaN in every row, which the check of lines
    139-140 refuses where no earlier step has raised. *)
Theorem zero_maximum_fails :
  forall (lib : library) (df : DataFrame) (test_days : Z) (scale : bool)
         (ts t n : Series) (xs : list float),
    well_formed df ->
    getitem df "timestamp" = Ok ts ->
    DatetimeIndex lib ts = Ok t ->
    getitem df "num_time" = Ok n ->
    to_floats n = Ok xs ->
    zero_max (calendar_floats dayofweek t) \/ zero_max xs ->
    fails (snd (preprocess_data lib df test_days scale)).
Proof.
  intros lib df test_days scale ts t n xs Hwf Hts Ht Hn Hxs Hzero.
  destruct (snd (preprocess_data lib df test_days scale))
    as [[[[train tg] test] tg']|e] eqn:E; [|exists e; reflexivity].
  pose proof E as E0. apply preprocess_data_split in E.
  destruct E as (enc & st & Henc & Hsel & Hf & Hat & _).
  assert (Hfail : fails (snd (preprocess_data lib df test_days scale))).
  { apply (hole_at_split_fails lib df test_days st scale Hat).
    destruct (encoded_shaped lib df enc Hwf Henc) as [_ Hwfenc].
    destruct (select_targets_Ok _ _ _ Hsel) as (elec & _ & _ & _ & Hfeat).
    destruct (Hfeat Hwfenc) as [Hwfeat _].
    destruct (infer_frequency_Ok _ _ Hf) as [_ Hne].
    unfold encoded in Henc.
    destruct (derive_features lib df) as [caller [[]|e]] eqn:Hd; [|discriminate].
    cbn [bind] in Henc.
    assert (Hs : exists s, getitem df "sun_rise_set" = Ok s).
    { unfold derive_features in Hd. apply and_then_Ok in Hd.
      destruct Hd as (d1 & s & Hget & _). unfold get in Hget.
      injection Hget as _ Hget. exists s. exact Hget. }
    destruct Hs as (s & Hs).
    rewrite (derive_features_runs lib df s ts t n xs Hs Hts Ht Hn Hxs) in Hd.
    injection Hd as <-.
    assert (Hcol : exists name ys,
               zero_max ys
               /\ getitem (left_behind lib df s t xs) name = Ok (cycle (np_sin lib) ys)
               /\ mem name ["yday"; "month"; "wday"; "num_time"; "day_of_week"]%string = false
               /\ String.eqb "timestamp" name = false
               /\ String.eqb "week_day_end" name = false
               /\ mem name columns_remove = false).
    { destruct Hzero as [Hz|Hz].
      - exists "wday_sin"%string, (calendar_floats dayofweek t).
        split; [exact Hz|]. split; [|repeat split; reflexivity].
        unfold left_behind. rewrite ?getitem_setitem. names. reflexivity.
      - exists "num_time_sin"%string, xs.
        split; [exact Hz|]. split; [|repeat split; reflexivity].
        unfold left_behind. rewrite ?getitem_setitem. names. reflexivity. }
    destruct Hcol as (name & ys & Hz & Hget & Hd1 & Hd2 & Hd3 & Hd4).
    pose proof (encode_keeps lib _ enc name _ Henc Hget eq_refl Hd1 Hd2 Hd3) as Hk.
    destruct (select_targets_keeps enc _ _ name _ Hsel Hk Hd4) as (mask & Hfeatcol).
    apply (all_null_partition (features st) name _ (test_start st) Hwfeat Hne Hfeatcol).
    unfold all_null, on_rows. cbn [cells].
    apply Forall_select. exact (cycle_zero_max (np_sin lib) ys Hz). }
  destruct Hfail as (e & He). rewrite E0 in He. discriminate He.
Qed.

Lemma zero_maximum_fails_witness :
  fails (snd (preprocess_data sample_library mondays 1 true)).
Proof.
  apply (zero_maximum_fails sample_library mondays 1 true
           {| kind := Datetime;
              cells := map (fun i => Time ((4 + 7 * Z.of_nat i) * ns_per_day)) (seq 0 4) |}
           {| kind := Datetime;
              cells := map (fun i => Time ((4 + 7 * Z.of_nat i) * ns_per_day)) (seq 0 4) |}
           {| kind := Numeric;
              cells := map (fun i => Num (inject_Z (Z.of_nat i))) (seq 1 4) |}
           [Some 1%Q; Some 2%Q; Some 3%Q; Some 4%Q]).
  - apply rectangular_well_formed. reflexivity.
  - reflexivity.
  - reflexivity.
  - reflexivity.
  - reflexivity.
  - left. right. exists 0%Q. split; reflexivity.
Defined.
